(** * RESUMIFY: the resume builder's request handlers (src/app.py)

    A shallow embedding of the handlers of [src/app.py] and of the helper
    functions they call: the sanitizer [sanitize_input], the decoding of the
    bracketed form groups (experiences, projects, certifications), the AI
    text service with its local fallback, the token and plan gate, the
    resume life cycle and the purchase ledger.

    Conventions.
    - A Python [str] is a [string]; one [ascii] stands for one code point
      below 256, so [String.length] is Python's [len].
    - A Python [int] is a [Z].
    - [request.form] is a werkzeug [MultiDict]: an association list in
      submission order, in which a key may occur more than once.
    - The database is the committed state; a handler that returns without
      [db.session.commit()] (or after [db.session.rollback()]) leaves it as
      it was at the last commit. *)

From Stdlib Require Import ZArith List Bool Ascii String Lia.
From Stdlib Require Import DecimalString.
Import ListNotations.

Local Open Scope string_scope.
Local Open Scope Z_scope.

(* ================================================================== *)
(** ** Python string primitives *)
(* ================================================================== *)

Module Py.

(** [len(s)] as a Python integer. *)
Definition len (s : string) : Z := Z.of_nat (String.length s).

(** [not s]: the empty string is the only falsy string. *)
Definition falsy (s : string) : bool := (s =? "")%string.
Definition truthy (s : string) : bool := negb (falsy s).

(** [s.startswith(p)]. *)
Fixpoint startswith (s p : string) {struct p} : bool :=
  match p with
  | EmptyString => true
  | String b p' =>
      match s with
      | EmptyString => false
      | String a s' => Ascii.eqb a b && startswith s' p'
      end
  end.

(** The first [n] characters and what follows them. *)
Fixpoint take (n : nat) (s : string) : string :=
  match n, s with
  | S n', String c s' => String c (take n' s')
  | _, _ => EmptyString
  end.

Fixpoint drop (n : nat) (s : string) : string :=
  match n, s with
  | S n', String _ s' => drop n' s'
  | _, _ => s
  end.

(** [s.endswith(p)]. *)
Definition endswith (s p : string) : bool :=
  (String.length p <=? String.length s)%nat
  && (drop (String.length s - String.length p) s =? p)%string.

(** [s[:stop]] for an integer [stop]: a negative [stop] counts from the
    end and an out-of-range one is clamped. *)
Definition slice_to (s : string) (stop : Z) : string :=
  if 0 <=? stop then take (Z.to_nat stop) s
  else take (Z.to_nat (len s + stop)) s.

(** [s[1:-1]]. *)
Definition slice_inner (s : string) : string :=
  take (String.length s - 2) (drop 1 s).

(** [s.split(sep)] for a one-character separator: never empty. *)
Fixpoint split (sep : ascii) (s : string) : list string :=
  match s with
  | EmptyString => [EmptyString]
  | String c s' =>
      if Ascii.eqb c sep then EmptyString :: split sep s'
      else match split sep s' with
           | h :: t => String c h :: t
           | [] => [String c EmptyString]
           end
  end.

(** [l[i]]: [None] stands for [IndexError]. *)
Definition item {A} (l : list A) (i : nat) : option A := nth_error l i.

(** [s.rsplit(sep, 1)]: split once, at the last separator. *)
Fixpoint rsplit1 (sep : ascii) (s : string) : list string :=
  match s with
  | EmptyString => [EmptyString]
  | String c s' =>
      match rsplit1 sep s' with
      | [t] => if Ascii.eqb c sep then [EmptyString; t] else [String c t]
      | h :: t => String c h :: t
      | [] => [String c EmptyString]
      end
  end.

(** [c in s] for a character [c]. *)
Fixpoint contains_char (c : ascii) (s : string) : bool :=
  match s with
  | EmptyString => false
  | String a s' => Ascii.eqb a c || contains_char c s'
  end.

(** [sub in s]. *)
Fixpoint contains (s sub : string) : bool :=
  startswith s sub
  || match s with
     | EmptyString => false
     | String _ s' => contains s' sub
     end.

(** [c.isspace()] on the code points below 256. *)
Definition isspace (c : ascii) : bool :=
  let n := nat_of_ascii c in
  ((9 <=? n) && (n <=? 13) || (28 <=? n) && (n <=? 32)
   || (n =? 133) || (n =? 160))%nat.

Fixpoint lstrip (s : string) : string :=
  match s with
  | EmptyString => EmptyString
  | String c s' => if isspace c then lstrip s' else s
  end.

Fixpoint rstrip (s : string) : string :=
  match s with
  | EmptyString => EmptyString
  | String c s' =>
      match rstrip s' with
      | EmptyString => if isspace c then EmptyString else String c EmptyString
      | r => String c r
      end
  end.

(** [s.strip()]. *)
Definition strip (s : string) : string := rstrip (lstrip s).

(** [s.lower()] on the code points below 256. *)
Definition lower_char (c : ascii) : ascii :=
  let n := nat_of_ascii c in
  if ((65 <=? n) && (n <=? 90)
      || (192 <=? n) && (n <=? 222) && negb (n =? 215))%nat
  then ascii_of_nat (n + 32) else c.

Fixpoint lower (s : string) : string :=
  match s with
  | EmptyString => EmptyString
  | String c s' => String (lower_char c) (lower s')
  end.

(** [sep.join(l)]. *)
Definition join (sep : string) (l : list string) : string :=
  String.concat sep l.

(** [s * n]. *)
Fixpoint repeat (s : string) (n : nat) : string :=
  match n with
  | O => EmptyString
  | S n' => s ++ repeat s n'
  end.

(** [str(n)] for an integer. *)
Definition str_of_int (n : Z) : string :=
  NilZero.string_of_int (Z.to_int n).

End Py.

(* ================================================================== *)
(** ** The submitted form: werkzeug's [MultiDict] *)
(* ================================================================== *)

Module Form.

(** The submitted fields, in submission order. *)
Definition t := list (string * string).

(** [form.get(key, default)]: the first value submitted under [key]. *)
Fixpoint get (form : t) (key default : string) : string :=
  match form with
  | [] => default
  | (k, v) :: rest => if (k =? key)%string then v else get rest key default
  end.

(** [form[key]]: [None] stands for [KeyError]. *)
Fixpoint lookup (form : t) (key : string) : option string :=
  match form with
  | [] => None
  | (k, v) :: rest => if (k =? key)%string then Some v else lookup rest key
  end.

(** [form.keys()]: every key once, in the order of its first occurrence. *)
Fixpoint keys (form : t) : list string :=
  match form with
  | [] => []
  | (k, _) :: rest => k :: filter (fun k' => negb (k' =? k)%string) (keys rest)
  end.

End Form.

(* ================================================================== *)
(** ** The data model: sub-records and rows *)
(* ================================================================== *)

Module Experience.
Record t := mk { job_title : string; company : string; job_desc : string }.
End Experience.

Module Project.
Record t := mk { name : string; description : string; link : string }.
End Project.

Module Certification.
Record t := mk { name : string; issuer : string; year : string }.
End Certification.

(** [json.dumps] on the values the handlers encode: lists of dictionaries
    with string values (default separators, [ensure_ascii=True]). *)
Module Json.

Definition hex_digit (n : nat) : ascii :=
  if (n <? 10)%nat then ascii_of_nat (48 + n) else ascii_of_nat (87 + n).

Definition escape_char (c : ascii) : string :=
  let n := nat_of_ascii c in
  if (n =? 34)%nat then String "\" (String "034" EmptyString)
  else if (n =? 92)%nat then "\\"
  else if (n =? 10)%nat then "\n"
  else if (n =? 13)%nat then "\r"
  else if (n =? 9)%nat then "\t"
  else if (n =? 8)%nat then "\b"
  else if (n =? 12)%nat then "\f"
  else if ((32 <=? n) && (n <=? 126))%nat then String c EmptyString
  else "\u00" ++ String (hex_digit (n / 16)) (String (hex_digit (n mod 16)) EmptyString).

Fixpoint escape (s : string) : string :=
  match s with
  | EmptyString => EmptyString
  | String c s' => escape_char c ++ escape s'
  end.

Definition quoted (s : string) : string :=
  String "034" (escape s ++ String "034" EmptyString).

Definition member (kv : string * string) : string :=
  quoted (fst kv) ++ ": " ++ quoted (snd kv).

Definition object (members : list (string * string)) : string :=
  "{" ++ Py.join ", " (map member members) ++ "}".

Definition array (items : list string) : string :=
  "[" ++ Py.join ", " items ++ "]".

Definition of_experience (e : Experience.t) : string :=
  object [("job_title", Experience.job_title e);
          ("company", Experience.company e);
          ("job_desc", Experience.job_desc e)].

Definition of_project (p : Project.t) : string :=
  object [("name", Project.name p);
          ("description", Project.description p);
          ("link", Project.link p)].

Definition of_certification (c : Certification.t) : string :=
  object [("name", Certification.name c);
          ("issuer", Certification.issuer c);
          ("year", Certification.year c)].

(** [json.dumps(l) if l else None]: how the handlers fill a JSON column. *)
Definition column {A} (enc : A -> string) (l : list A) : option string :=
  match l with
  | [] => None
  | _ => Some (array (map enc l))
  end.

End Json.

(* ================================================================== *)
(** ** The sanitizer and the decoding of the bracketed form groups *)
(* ================================================================== *)

(** The default of [sanitize_input]'s [max_length]. *)
Definition DEFAULT_MAX_LENGTH : Z := 5000.

Section Decoder.

(** [bleach.clean(text, tags=['b','i','u','br','p','strong','em'],
    attributes={}, strip=True)]: the third-party HTML cleaner, taken as
    it is called by [sanitize_input]. *)
Variable clean : string -> string.

(** [sanitize_input(text, max_length)] on a [str]: falsy text is returned
    as it is, other text is truncated and then cleaned.  (A value that is
    no [str] is returned as it is too; every caller passes a form value,
    which is a [str].) *)
Definition sanitize_input (text : string) (max_length : Z) : string :=
  if Py.falsy text then text
  else clean (Py.slice_to text max_length).

(** [sanitize_input(text)], with the default [max_length]. *)
Definition sanitize (text : string) : string :=
  sanitize_input text DEFAULT_MAX_LENGTH.

(** [f'{prefix}[{idx}][{field}]']. *)
Definition field_key (prefix idx field : string) : string :=
  prefix ++ "[" ++ idx ++ "][" ++ field ++ "]".

(** [key.split('[')[1].split(']')[0]]. *)
Definition index_token (key : string) : option string :=
  match Py.item (Py.split "[" key) 1 with
  | None => None
  | Some part => Py.item (Py.split "]" part) 0
  end.

(** [form.get(f'{prefix}[{idx}][{field}]', '').strip()]. *)
Definition stripped_field (form : Form.t) (prefix idx field : string) : string :=
  Py.strip (Form.get form (field_key prefix idx field) "").

(** The three anchor tests of the loops. *)
Definition is_experience_key (key : string) : bool :=
  Py.startswith key "experiences[" && Py.endswith key "[job_title]".

Definition is_project_key (key : string) : bool :=
  Py.startswith key "projects[" && Py.endswith key "[name]".

Definition is_certification_key (key : string) : bool :=
  Py.startswith key "certifications[" && Py.endswith key "[name]".

(** The body of each loop for one index token: the record it appends, or
    [None] when the required fields are missing. *)
Definition experience_at (form : Form.t) (idx : string) : option Experience.t :=
  let job_title := sanitize (stripped_field form "experiences" idx "job_title") in
  let company := sanitize (stripped_field form "experiences" idx "company") in
  let job_desc := sanitize (stripped_field form "experiences" idx "job_desc") in
  if Py.truthy job_title || Py.truthy company
  then Some (Experience.mk job_title company job_desc)
  else None.

Definition project_at (form : Form.t) (idx : string) : option Project.t :=
  let project_name := sanitize (stripped_field form "projects" idx "name") in
  let project_desc := sanitize (stripped_field form "projects" idx "description") in
  let project_link := stripped_field form "projects" idx "link" in
  if Py.truthy project_name
  then Some (Project.mk project_name project_desc project_link)
  else None.

Definition certification_at (form : Form.t) (idx : string) : option Certification.t :=
  let cert_name := sanitize (stripped_field form "certifications" idx "name") in
  let cert_issuer := sanitize (stripped_field form "certifications" idx "issuer") in
  let cert_year := stripped_field form "certifications" idx "year" in
  if Py.truthy cert_name
  then Some (Certification.mk cert_name cert_issuer cert_year)
  else None.

(** [for key in form.keys(): if <anchor test>: idx = ...; <body>], with the
    list built so far; [None] stands for the [IndexError] of the index
    expression. *)
Fixpoint decode_loop {R} (is_anchor : string -> bool) (body : string -> option R)
         (ks : list string) (acc : list R) : option (list R) :=
  match ks with
  | [] => Some acc
  | key :: rest =>
      if is_anchor key then
        match index_token key with
        | None => None
        | Some idx =>
            match body idx with
            | Some r => decode_loop is_anchor body rest (acc ++ [r])
            | None => decode_loop is_anchor body rest acc
            end
        end
      else decode_loop is_anchor body rest acc
  end.

(** Steps 6, 7 and 8 of [generate]; the same three loops are in
    [edit_resume]. *)
Definition decode_experiences (form : Form.t) : option (list Experience.t) :=
  decode_loop is_experience_key (experience_at form) (Form.keys form) [].

Definition decode_projects (form : Form.t) : option (list Project.t) :=
  decode_loop is_project_key (project_at form) (Form.keys form) [].

Definition decode_certifications (form : Form.t) : option (list Certification.t) :=
  decode_loop is_certification_key (certification_at form) (Form.keys form) [].

End Decoder.

(** [bleach.clean] on text that holds no markup.  With no [<] in the text
    the library's tokenizer yields character tokens only; an [&] that cannot
    begin a character reference stays a character; the serializer then
    writes the characters with [&], [>] and [<] escaped, as in the
    library's own examples ('an & entity' becomes 'an &amp; entity').
    [text_only] is the domain on which [clean_text] stands for the library:
    printable ASCII text without [<], in which no [&] is followed by a
    letter or by [#]. *)
Module Bleach.

Definition escape_char (c : ascii) : string :=
  if Ascii.eqb c "&" then "&amp;"
  else if Ascii.eqb c ">" then "&gt;"
  else if Ascii.eqb c "<" then "&lt;"
  else String c EmptyString.

Fixpoint clean_text (s : string) : string :=
  match s with
  | EmptyString => EmptyString
  | String c s' => escape_char c ++ clean_text s'
  end.

(** Tab, line feed and the printable ASCII characters. *)
Definition printable (c : ascii) : bool :=
  let n := nat_of_ascii c in
  ((n =? 9) || (n =? 10) || (32 <=? n) && (n <=? 126))%nat.

(** A letter or [#]: what a character reference begins with after [&]. *)
Definition reference_start (c : ascii) : bool :=
  let n := nat_of_ascii c in
  ((65 <=? n) && (n <=? 90) || (97 <=? n) && (n <=? 122) || (n =? 35))%nat.

Fixpoint text_only (s : string) : bool :=
  match s with
  | EmptyString => true
  | String c s' =>
      printable c && negb (Ascii.eqb c "<")
      && (if Ascii.eqb c "&"
          then match s' with
               | EmptyString => true
               | String d _ => negb (reference_start d)
               end
          else true)
      && text_only s'
  end.

End Bleach.

(* ================================================================== *)
(** ** Rows, the committed database and the interface of [models.User] *)
(* ================================================================== *)

Module User.
(** The columns of [User] that the handlers read or write; a time is a
    number of seconds. *)
Record t := mk {
  id : Z;
  tokens : Z;
  plan : string;
  last_generated : option Z;
  last_token_reset : option Z
}.

Definition set_tokens (n : Z) (u : t) : t :=
  mk (id u) n (plan u) (last_generated u) (last_token_reset u).
Definition set_plan (p : string) (u : t) : t :=
  mk (id u) (tokens u) p (last_generated u) (last_token_reset u).
Definition set_last_generated (now : Z) (u : t) : t :=
  mk (id u) (tokens u) (plan u) (Some now) (last_token_reset u).
Definition set_last_token_reset (now : Z) (u : t) : t :=
  mk (id u) (tokens u) (plan u) (last_generated u) (Some now).
End User.

Module Resume.
Record t := mk {
  id : Z;
  user_id : Z;
  name : string;
  profession : string;
  email : string;
  phone : string;
  linkedin : string;
  github : string;
  bio : string;
  skills : string;
  experiences : option string;
  degree : string;
  institute : string;
  grad_year : string;
  profile_pic_url : option string;
  template : string;
  projects : option string;
  certifications : option string;
  (** Modelled from the spec: the creation timestamp of the row.  No
      handler passes it to the constructor; it is the column's default,
      which [models.py], absent from the sources, declares, and it is set
      when the row is inserted. *)
  timestamp : option Z
}.

(** The row as it is inserted at time [now]. *)
Definition created (now : Z) (r : t) : t :=
  mk (id r) (user_id r) (name r) (profession r) (email r) (phone r)
     (linkedin r) (github r) (bio r) (skills r) (experiences r) (degree r)
     (institute r) (grad_year r) (profile_pic_url r) (template r)
     (projects r) (certifications r) (Some now).
End Resume.

Module Purchase.
Record t := mk { user_id : Z; amount : Z; description : string }.
End Purchase.

(** The committed database, as seen by one logged-in user: that user's row
    ([current_user]), every resume row and every purchase row. *)
Record DB := mkDB {
  current_user : User.t;
  resumes : list Resume.t;
  purchases : list Purchase.t
}.

Definition with_user (u : User.t) (db : DB) : DB :=
  mkDB u (resumes db) (purchases db).

(** The methods of [models.User] that the handlers call.  [models.py] is not
    among the sources: the handlers are embedded over this interface. *)
Record UserMethods := mkUserMethods {
  reset_tokens_if_needed : Z -> User.t -> User.t;
  has_tokens : User.t -> bool;
  is_pro_user : User.t -> bool;
  is_ultimate_user : User.t -> bool;
  deduct_token : User.t -> User.t
}.

(** The token and plan gate of [models.User], from the specification. *)
Module SpecModels.

(** Modelled from the spec: [models.User.is_pro_user], absent from the
    sources; the plan tier is pro. *)
Definition is_pro_user (u : User.t) : bool := (User.plan u =? "pro")%string.

(** Modelled from the spec: [models.User.is_ultimate_user], absent from the
    sources; the plan tier is ultimate. *)
Definition is_ultimate_user (u : User.t) : bool :=
  (User.plan u =? "ultimate")%string.

(** Modelled from the spec: [models.User.has_tokens], absent from the
    sources; true if unlimited (the ultimate plan) or balance > 0. *)
Definition has_tokens (u : User.t) : bool :=
  is_ultimate_user u || (0 <? User.tokens u).

(** Modelled from the spec: [models.User.deduct_token], absent from the
    sources; decrements the balance by 1 unless unlimited, and never goes
    below 0. *)
Definition deduct_token (u : User.t) : User.t :=
  if is_ultimate_user u then u
  else if 0 <? User.tokens u then User.set_tokens (User.tokens u - 1) u
  else u.

(** The daily reset window of a time in seconds. *)
Definition day (t : Z) : Z := t / 86400.

(** Modelled from the spec: [models.User.reset_tokens_if_needed], absent
    from the sources; if the last reset is not within the current daily
    window, a free-tier balance below the baseline allotment is restored
    to it, and the reset is stamped.  The spec gives no number for the
    baseline: it is the argument [baseline]. *)
Definition reset_tokens_if_needed (baseline : Z) (now : Z) (u : User.t) : User.t :=
  let due := match User.last_token_reset u with
             | Some t => negb (day t =? day now)
             | None => true
             end in
  if due then
    User.set_last_token_reset now
      (if (User.plan u =? "free")%string && (User.tokens u <? baseline)
       then User.set_tokens baseline u else u)
  else u.

Definition methods (baseline : Z) : UserMethods :=
  mkUserMethods (reset_tokens_if_needed baseline) has_tokens
                is_pro_user is_ultimate_user deduct_token.

End SpecModels.

(* ================================================================== *)
(** ** The AI text service and its local fallback *)
(* ================================================================== *)

Module Ai.

(** What one [requests.post] of [get_ai_response] comes back with: status
    200 with the text at [choices[0].message.content] ([None] when the body
    has no such text, an exception), status 429, another status, a timeout,
    or another request failure. *)
Inductive Outcome :=
| Ok200 (content : option string)
| RateLimited
| OtherStatus (code : Z)
| TimedOut
| RequestFailed.

(** The loop [for attempt in range(max_retries)], from attempt number
    [attempt] with [remaining] attempts to go; [post] is the service's
    answer to each attempt. *)
Fixpoint attempts (post : nat -> Outcome) (attempt remaining : nat) : option string :=
  match remaining with
  | O => None
  | S r =>
      match post attempt with
      | Ok200 (Some text) =>
          let content := Py.strip text in
          if Py.truthy content && (10 <? Py.len content) then Some content
          else attempts post (S attempt) r
      | _ => attempts post (S attempt) r
      end
  end.

(** [get_ai_response(prompt, system_prompt, ..., max_retries)]: [None]
    without an API key, and after the last failed attempt. *)
Definition get_ai_response (api_key : option string) (post : nat -> Outcome)
           (max_retries : nat) : option string :=
  match api_key with
  | None => None
  | Some k => if Py.falsy k then None else attempts post 0 max_retries
  end.

(** [random.choice(seq)] with the generator's draw made explicit. *)
Definition random_choice (draw : nat) (seq : list string) : string :=
  nth (draw mod List.length seq) seq EmptyString.

(** [generate_fallback_bio(name, profession, skills)]. *)
Definition skill_text (skills : string) : string :=
  let skills_list :=
    filter Py.truthy (map Py.strip (Py.split "," skills)) in
  match skills_list with
  | s0 :: s1 :: s2 :: _ => s0 ++ ", " ++ s1 ++ ", and " ++ s2
  | [s0; s1] => s0 ++ " and " ++ s1
  | [s0] => s0
  | [] => "various technologies"
  end.

Definition templates (name profession skills : string) : list string :=
  let skill_text := skill_text skills in
  [ "I'm " ++ name ++ ", a " ++ profession ++ " with expertise in " ++ skill_text
    ++ ". I'm passionate about creating impactful solutions and continuously learning new technologies.";
    "I'm a " ++ profession ++ " specializing in " ++ skill_text
    ++ ". I combine technical expertise with creative problem-solving to deliver high-quality results.";
    "As a " ++ profession ++ ", I leverage " ++ skill_text
    ++ " to build innovative solutions. I'm committed to writing clean code and collaborating effectively with teams." ].

Definition generate_fallback_bio (draw : nat) (name profession skills : string) : string :=
  random_choice draw (templates name profession skills).

(** The removal of one pair of surrounding quotes [q]. *)
Definition unquote (q : string) (bio : string) : string :=
  if Py.startswith bio q && Py.endswith bio q then Py.slice_inner bio else bio.

(** [generate_bio(name, profession, skills)]; [response] is what
    [get_ai_response] returned. *)
Definition generate_bio (response : option string) (draw : nat)
           (name profession skills : string) : string :=
  match response with
  | Some bio =>
      if Py.truthy bio
      then unquote "'" (unquote (String "034" EmptyString) (Py.strip bio))
      else generate_fallback_bio draw name profession skills
  | None => generate_fallback_bio draw name profession skills
  end.

End Ai.

(* ================================================================== *)
(** ** Requests and responses *)
(* ================================================================== *)

(** [flash(message, category)]. *)
Definition Flash : Type := string * string.

(** What a handler returns: a redirect to an endpoint (with its
    [resume_id] argument, if any), a rendered resume template, the edit
    form, or the 404 page; with the messages flashed on the way. *)
Record ResumeView := mkView {
  view_resume : Resume.t;
  view_skills : list string;
  view_experiences : list Experience.t;
  view_projects : list Project.t;
  view_certifications : list Certification.t
}.

Inductive Response :=
| Redirect (endpoint : string) (resume_id : option Z) (flashed : list Flash)
| RenderResume (template : string) (context : ResumeView) (flashed : list Flash)
| RenderEditForm (original : Resume.t)
| NotFound.

(** An uploaded file of [request.files]: its name and its size in bytes. *)
Record Upload := mkUpload { filename : string; size : Z }.

Inductive Method := GET | POST.

(** A request to [/generate] or to [/resume/<id>/edit]: the method, the
    [duplicate] query argument, the form and the [profile_pic] file. *)
Record Request := mkRequest {
  method : Method;
  duplicate : option string;
  form : Form.t;
  profile_pic : option Upload
}.

(** What a handler takes from outside the database: the clock, the API key
    of the environment, the AI service's answer to each attempt, the draw of
    [random.choice], the name under which an upload is stored
    ([f"{timestamp}_{secure_filename(pic.filename)}"]), and whether
    [render_template] renders a template file or raises (the template
    files are not among the sources). *)
Record Env := mkEnv {
  now : Z;
  api_key : option string;
  post : nat -> Ai.Outcome;
  draw : nat;
  upload_name : string -> string;
  renders : string -> bool
}.

(* ================================================================== *)
(** ** The purchase ledger and the deletion of a resume *)
(* ================================================================== *)

(** [price_map.get(count, 0)] with [price_map = {1: 50, 5: 100}]. *)
Definition price_map_get (count : Z) : Z :=
  if count =? 1 then 50 else if count =? 5 then 100 else 0.

Definition add_purchase (p : Purchase.t) (db : DB) : DB :=
  mkDB (current_user db) (resumes db) (purchases db ++ [p]).

(** [buy_token(count)]. *)
Definition buy_token (db : DB) (count : Z) : DB * Response :=
  let amount := price_map_get count in
  if amount =? 0 then
    (db, Redirect "pricing" None [("Invalid token pack selected.", "error")])
  else
    let user := current_user db in
    let user := User.set_tokens (User.tokens user + count) user in
    let purchase := Purchase.mk (User.id user) amount
                                (Py.str_of_int count ++ " Token Pack") in
    (add_purchase purchase (with_user user db),
     Redirect "pricing" None
       [(Py.str_of_int count ++ " token" ++ (if 1 <? count then "s" else "")
         ++ " purchased successfully.", "success")]).

(** [upgrade(plan)]. *)
Definition upgrade (db : DB) (plan : string) : DB * Response :=
  let user := current_user db in
  if (plan =? "pro")%string then
    let user := User.set_plan "pro" (User.set_tokens (User.tokens user + 15) user) in
    let purchase := Purchase.mk (User.id user) 199 "Pro Pack" in
    (add_purchase purchase (with_user user db),
     Redirect "my_resumes" None
       [("Upgraded to Pro Pack. 15 tokens added + Premium templates unlocked.", "success")])
  else if (plan =? "ultimate")%string then
    let user := User.set_plan "ultimate" (User.set_tokens 9999 user) in
    let purchase := Purchase.mk (User.id user) 499 "Ultimate Pack" in
    (add_purchase purchase (with_user user db),
     Redirect "my_resumes" None
       [("Welcome to Ultimate Pack. Unlimited tokens + all templates unlocked.", "success")])
  else
    (db, Redirect "pricing" None [("Invalid upgrade option.", "error")]).

(** [Resume.query.get(resume_id)]. *)
Definition get_resume (db : DB) (resume_id : Z) : option Resume.t :=
  find (fun r => Resume.id r =? resume_id) (resumes db).

(** [db.session.delete(resume)] followed by the commit. *)
Definition delete_row (resume_id : Z) (db : DB) : DB :=
  mkDB (current_user db)
       (filter (fun r => negb (Resume.id r =? resume_id)) (resumes db))
       (purchases db).

(** [delete_resume(resume_id)]. *)
Definition delete_resume (db : DB) (resume_id : Z) : DB * Response :=
  match get_resume db resume_id with
  | None => (db, NotFound)
  | Some resume =>
      if negb (Resume.user_id resume =? User.id (current_user db)) then
        (db, Redirect "start" None [("Unauthorized", "error")])
      else
        (delete_row resume_id db,
         Redirect "my_resumes" None [("Resume deleted successfully!", "success")])
  end.

(* ================================================================== *)
(** ** Resume generation and editing *)
(* ================================================================== *)

(** [allowed_extensions] of the two upload checks. *)
Definition allowed_extensions : list string := ["png"; "jpg"; "jpeg"; "gif"; "webp"].

(** [pic.filename.rsplit('.', 1)[1].lower() if '.' in pic.filename else ''];
    [None] stands for [IndexError]. *)
Definition file_ext (name : string) : option string :=
  if Py.contains_char "." name then
    match Py.item (Py.rsplit1 "." name) 1 with
    | Some ext => Some (Py.lower ext)
    | None => None
    end
  else Some EmptyString.

(** The outcome of the upload check shared by [generate] and [edit_resume]:
    no usable file, a refused file (with the message flashed), a stored file
    (with its URL), or an exception. *)
Inductive PicCheck :=
| NoPic
| PicRefused (message : string)
| PicStored (url : string)
| PicRaised.

Definition check_pic (env : Env) (pic : option Upload) : PicCheck :=
  match pic with
  | None => NoPic
  | Some pic =>
      if Py.truthy (filename pic) then
        match file_ext (filename pic) with
        | None => PicRaised
        | Some ext =>
            if negb (existsb (String.eqb ext) allowed_extensions) then
              PicRefused "Invalid file type. Please upload an image (PNG, JPG, JPEG, GIF, WEBP)."
            else if 5 * 1024 * 1024 <? size pic then
              PicRefused "File too large. Maximum size is 5MB."
            else PicStored ("/static/uploads/" ++ upload_name env (filename pic))
        end
      else NoPic
  end.

(** The primary key a new resume row gets. *)
Definition next_resume_id (db : DB) : Z :=
  1 + fold_right Z.max 0 (map Resume.id (resumes db)).

Definition add_resume (r : Resume.t) (db : DB) : DB :=
  mkDB (current_user db) (resumes db ++ [r]) (purchases db).

(** [db.session.add(resume)] followed by the commit, at time [now]. *)
Definition insert_resume (now : Z) (r : Resume.t) (db : DB) : DB :=
  add_resume (Resume.created now r) db.

(** The commit of a row changed in place. *)
Definition update_resume (r : Resume.t) (db : DB) : DB :=
  mkDB (current_user db)
       (map (fun r0 => if Resume.id r0 =? Resume.id r then r else r0) (resumes db))
       (purchases db).

(** [Resume.query.filter_by(id=resume_id, user_id=current_user.id).first()]. *)
Definition find_owned (db : DB) (resume_id : Z) : option Resume.t :=
  find (fun r => (Resume.id r =? resume_id)
                 && (Resume.user_id r =? User.id (current_user db)))
       (resumes db).

Definition generation_failed : Response :=
  Redirect "start" None [("Failed to generate resume. Please try again.", "error")].

Definition update_failed : Response :=
  Redirect "my_resumes" None [("Failed to update resume. Please try again.", "error")].

Section Handlers.

(** [bleach.clean] as [sanitize_input] calls it. *)
Variable clean : string -> string.

(** The methods of the logged-in [User]. *)
Variable M : UserMethods.

(** [config.FREE_TEMPLATES]; [config.py] is not among the sources. *)
Variable FREE_TEMPLATES : list string.

(** [[s.strip() for s in text.split(',') if s.strip()]]. *)
Definition skill_list (text : string) : list string :=
  filter Py.truthy (map Py.strip (Py.split "," text)).

(** Step 5 of [generate]: the submitted bio, or a generated one; [None]
    stands for the [KeyError] of [form['name']] or [form['profession']]. *)
Definition generate_step_bio (env : Env) (form : Form.t) (skills : list string)
  : option string :=
  let bio_input := sanitize clean (Py.strip (Form.get form "bio" "")) in
  if Py.falsy bio_input then
    match Form.lookup form "name", Form.lookup form "profession" with
    | Some name, Some profession =>
        Some (Ai.generate_bio (Ai.get_ai_response (api_key env) (post env) 3)
                              (draw env)
                              (sanitize clean name) (sanitize clean profession)
                              (Py.join ", " skills))
    | _, _ => None
    end
  else Some bio_input.

(** Steps 5 to 9 of [generate]: the row to insert and the lists to render;
    [None] stands for an exception. *)
Definition generate_build (env : Env) (db : DB) (form : Form.t)
           (template : string) (pic_url : option string) : option ResumeView :=
  let skills := skill_list (Form.get form "skills" "") in
  match generate_step_bio env form skills,
        decode_experiences clean form,
        decode_projects clean form,
        decode_certifications clean form,
        Form.lookup form "name",
        Form.lookup form "profession" with
  | Some bio, Some experiences, Some projects, Some certifications,
    Some name, Some profession =>
      let resume :=
        Resume.mk (next_resume_id db)
                  (User.id (current_user db))
                  (sanitize clean name)
                  (sanitize clean profession)
                  (Form.get form "email" "")
                  (Form.get form "phone" "")
                  (Form.get form "linkedin" "")
                  (Form.get form "github" "")
                  bio
                  (Py.join "," skills)
                  (Json.column Json.of_experience experiences)
                  (sanitize clean (Form.get form "degree" ""))
                  (sanitize clean (Form.get form "institute" ""))
                  (Form.get form "grad_year" "")
                  pic_url
                  template
                  (Json.column Json.of_project projects)
                  (Json.column Json.of_certification certifications)
                  None in
      Some (mkView resume skills experiences projects certifications)
  | _, _, _, _, _, _ => None
  end.

(** [generate()]: the handler of [POST /generate]. *)
Definition generate (db : DB) (env : Env) (req : Request) : DB * Response :=
  (* Step 1: refresh tokens if needed, and commit *)
  let user := reset_tokens_if_needed M (now env) (current_user db) in
  let db := with_user user db in
  let form := form req in
  let template := Form.get form "template" "classic" in
  (* Step 2: premium template check *)
  let is_premium := negb (existsb (String.eqb template) FREE_TEMPLATES) in
  if is_premium && negb (is_pro_user M user || is_ultimate_user M user) then
    (db, Redirect "pricing" None
           [("This template is only available for Pro or Ultimate users.", "error")])
  (* Step 3: token availability check *)
  else if negb (has_tokens M user) then
    (db, Redirect "pricing" None
           [("You're out of tokens. Please buy more or wait for your daily reset.", "error")])
  else
    (* Step 4: profile picture handling *)
    match check_pic env (profile_pic req) with
    | PicRefused message => (db, Redirect "start" None [(message, "error")])
    | PicRaised => (db, generation_failed)
    | (NoPic | PicStored _) as checked =>
        let pic_url := match checked with PicStored url => Some url | _ => None end in
        match generate_build env db form template pic_url with
        | None => (db, generation_failed)
        | Some view =>
            (* Steps 9 and 10: insert, deduct a token, commit *)
            let user := User.set_last_generated (now env) (deduct_token M user) in
            let db := with_user user (insert_resume (now env) (view_resume view) db) in
            (* Step 11: flash, then render; a template that does not render
               raises after the commit, and the rollback undoes nothing *)
            let page := "resume_" ++ template ++ ".html" in
            if renders env page then
              (db, RenderResume page view
                                [("Resume generated successfully!", "success")])
            else
              (db, Redirect "start" None
                            [("Resume generated successfully!", "success");
                             ("Failed to generate resume. Please try again.", "error")])
        end
    end.

(** The POST branch of [edit_resume] after the upload check: the row with
    every mutable column overwritten; [None] stands for an exception. *)
Definition edit_apply (original : Resume.t) (form : Form.t)
           (pic_url : option string) : option Resume.t :=
  match decode_experiences clean form,
        decode_projects clean form,
        decode_certifications clean form with
  | Some experiences, Some projects, Some certifications =>
      Some (Resume.mk (Resume.id original)
                      (Resume.user_id original)
                      (sanitize clean (Form.get form "name" ""))
                      (sanitize clean (Form.get form "profession" ""))
                      (Form.get form "email" "")
                      (Form.get form "phone" "")
                      (Form.get form "linkedin" "")
                      (Form.get form "github" "")
                      (sanitize clean (Form.get form "bio" ""))
                      (Form.get form "skills" "")
                      (Json.column Json.of_experience experiences)
                      (sanitize clean (Form.get form "degree" ""))
                      (sanitize clean (Form.get form "institute" ""))
                      (Form.get form "grad_year" "")
                      pic_url
                      (Form.get form "template" "classic")
                      (Json.column Json.of_project projects)
                      (Json.column Json.of_certification certifications)
                      (Resume.timestamp original))
  | _, _, _ => None
  end.

(** [edit_resume(resume_id)]: the handler of [/resume/<id>/edit].  The 404
    of [first_or_404] is raised inside the [try] and caught with every other
    exception, as is an edit form that does not render.  The copy of a
    duplication is built without a creation time and gets it when it is
    inserted; an edit in place keeps the creation time of the row. *)
Definition edit_resume (db : DB) (env : Env) (resume_id : Z) (req : Request)
  : DB * Response :=
  match find_owned db resume_id with
  | None => (db, update_failed)
  | Some original =>
      if match duplicate req with Some d => (d =? "1")%string | None => false end then
        let copy :=
          Resume.mk (next_resume_id db) (User.id (current_user db))
                    (Resume.name original) (Resume.profession original)
                    (Resume.email original) (Resume.phone original)
                    (Resume.linkedin original) (Resume.github original)
                    (Resume.bio original) (Resume.skills original)
                    (Resume.experiences original) (Resume.degree original)
                    (Resume.institute original) (Resume.grad_year original)
                    (Resume.profile_pic_url original) (Resume.template original)
                    (Resume.projects original) (Resume.certifications original)
                    None in
        (insert_resume (now env) copy db,
         Redirect "edit_resume" (Some (Resume.id copy))
                  [("Resume duplicated. You can now edit it.", "info")])
      else
        match method req with
        | POST =>
            match check_pic env (profile_pic req) with
            | PicRefused message =>
                (db, Redirect "edit_resume" (Some resume_id) [(message, "error")])
            | PicRaised => (db, update_failed)
            | (NoPic | PicStored _) as checked =>
                let pic_url := match checked with
                               | PicStored url => Some url
                               | _ => Resume.profile_pic_url original
                               end in
                match edit_apply original (form req) pic_url with
                | None => (db, update_failed)
                | Some updated =>
                    (update_resume updated db,
                     Redirect "my_resumes" None
                              [("Resume updated successfully!", "success")])
                end
            end
        | GET =>
            if renders env "edit_resume.html" then (db, RenderEditForm original)
            else (db, update_failed)
        end
  end.

End Handlers.

(* ================================================================== *)
(** ** The other callers of the AI service and of the stored skills *)
(* ================================================================== *)

(** [generate_job_description(job_title, company, basic_desc)]: a short or
    empty description is returned as it is, without a request; a longer one
    is replaced by the service's answer when there is one.  The title and
    the company only enter the prompt. *)
Definition generate_job_description (api_key : option string) (post : nat -> Ai.Outcome)
           (job_title company basic_desc : string) : string :=
  if Py.falsy basic_desc || (Py.len basic_desc <? 20) then basic_desc
  else
    match Ai.get_ai_response api_key post 3 with
    | Some enhanced => if Py.truthy enhanced then enhanced else basic_desc
    | None => basic_desc
    end.

(** [test_ai_connection()]: whether the service answers a test prompt. *)
Definition test_ai_connection (api_key : option string) (post : nat -> Ai.Outcome) : bool :=
  match Ai.get_ai_response api_key post 3 with
  | Some test_response => Py.truthy test_response
  | None => false
  end.

(** The skills of the context of [view_resume]:
    [[s.strip() for s in resume.skills.split(',') if s.strip()]]. *)
Definition view_resume_skills (resume : Resume.t) : list string :=
  filter Py.truthy (map Py.strip (Py.split "," (Resume.skills resume))).

(* ================================================================== *)
(** ** Accounts: [register], [login] and [logout] *)
(* ================================================================== *)

Module Account.
(** The columns that [register] fills. *)
Record t := mk {
  username : string;
  first_name : string;
  last_name : string;
  email : string;
  password : string;
  tokens : Z;
  plan : string
}.
End Account.

(** The data of a [RegisterForm] and of a [LoginForm] that passed
    [validate_on_submit()]. *)
Record RegisterData := mkRegisterData {
  reg_first_name : string;
  reg_last_name : string;
  reg_email : string;
  reg_password : string
}.

Record LoginData := mkLoginData {
  login_email : string;
  login_password : string
}.

(** The accounts table and the account of the session, if any. *)
Record AuthState := mkAuthState {
  accounts : list Account.t;
  logged_in : option Account.t
}.

Inductive AuthResponse :=
| AuthRedirect (endpoint : string) (flashed : list Flash)
| AuthRender (template : string) (flashed : list Flash).

(** [User.query.filter_by(email=email).first()]. *)
Definition find_account (table : list Account.t) (email : string) : option Account.t :=
  find (fun a => (Account.email a =? email)%string) table.

Section Auth.

(** [werkzeug.security.generate_password_hash] and [check_password_hash]. *)
Variable generate_password_hash : string -> string.
Variable check_password_hash : string -> string -> bool.

(** [register()]; [submitted] is the form's data when
    [form.validate_on_submit()] holds, and [None] otherwise. *)
Definition register (st : AuthState) (submitted : option RegisterData)
  : AuthState * AuthResponse :=
  match submitted with
  | Some data =>
      match find_account (accounts st) (reg_email data) with
      | Some _ =>
          (st, AuthRedirect "register" [("Email already registered.", "error")])
      | None =>
          let username := Py.lower (reg_first_name data) ++ "."
                          ++ Py.lower (reg_last_name data) in
          let hashed_pw := generate_password_hash (reg_password data) in
          let new_user := Account.mk username (reg_first_name data)
                                     (reg_last_name data) (reg_email data)
                                     hashed_pw 3 "free" in
          (mkAuthState (accounts st ++ [new_user]) (Some new_user),
           AuthRedirect "index" [("Account created successfully!", "success")])
      end
  | None => (st, AuthRender "register.html" [])
  end.

(** [login()]. *)
Definition login (st : AuthState) (submitted : option LoginData)
  : AuthState * AuthResponse :=
  match submitted with
  | Some data =>
      match find_account (accounts st) (login_email data) with
      | Some user =>
          if check_password_hash (Account.password user) (login_password data) then
            (mkAuthState (accounts st) (Some user),
             AuthRedirect "index" [("Logged in successfully.", "success")])
          else
            (st, AuthRender "login.html" [("Invalid email or password.", "danger")])
      | None =>
          (st, AuthRender "login.html" [("Invalid email or password.", "danger")])
      end
  | None => (st, AuthRender "login.html" [])
  end.

End Auth.

(** [logout()]. *)
Definition logout (st : AuthState) : AuthState * AuthResponse :=
  (mkAuthState (accounts st) None,
   AuthRedirect "login" [("Logged out successfully.", "success")]).

(* ================================================================== *)
(** ** Definitions used to state the properties *)
(* ================================================================== *)

(** The index tokens the loop over [form.keys()] meets, in order: one for
    each key that passes the anchor test. *)
Definition tokens_of (is_anchor : string -> bool) (ks : list string) : list string :=
  flat_map (fun key => match index_token key with
                       | Some idx => [idx]
                       | None => []
                       end)
           (filter is_anchor ks).

Definition index_tokens (is_anchor : string -> bool) (form : Form.t) : list string :=
  tokens_of is_anchor (Form.keys form).

(** What the body of a loop appends for one index token. *)
Definition emitted {R} (body : string -> option R) (idx : string) : list R :=
  match body idx with
  | Some r => [r]
  | None => []
  end.

(** A bracketed submission is well formed for a group when each of its keys
    that passes the anchor test is [prefix[INDEX][anchor]] for the index
    token read from it. *)
Definition well_formed_key (is_anchor : string -> bool) (prefix anchor : string)
           (key : string) : bool :=
  if is_anchor key then
    match index_token key with
    | Some idx => (key =? field_key prefix idx anchor)%string
    | None => false
    end
  else true.

Definition well_formed_group (is_anchor : string -> bool) (prefix anchor : string)
           (form : Form.t) : bool :=
  forallb (well_formed_key is_anchor prefix anchor) (Form.keys form).

Definition well_formed (form : Form.t) : bool :=
  well_formed_group is_experience_key "experiences" "job_title" form
  && well_formed_group is_project_key "projects" "name" form
  && well_formed_group is_certification_key "certifications" "name" form.

(** The required-field predicate of each group. *)
Definition experience_required (e : Experience.t) : bool :=
  Py.truthy (Experience.job_title e) || Py.truthy (Experience.company e).

Definition project_required (p : Project.t) : bool :=
  Py.truthy (Project.name p).

Definition certification_required (c : Certification.t) : bool :=
  Py.truthy (Certification.name c).

(** The fields submitted under one index token, as the loops read them. *)
Definition experience_record (clean : string -> string) (form : Form.t) (idx : string)
  : Experience.t :=
  Experience.mk
    (sanitize clean (Py.strip (Form.get form (field_key "experiences" idx "job_title") "")))
    (sanitize clean (Py.strip (Form.get form (field_key "experiences" idx "company") "")))
    (sanitize clean (Py.strip (Form.get form (field_key "experiences" idx "job_desc") ""))).

Definition project_record (clean : string -> string) (form : Form.t) (idx : string)
  : Project.t :=
  Project.mk
    (sanitize clean (Py.strip (Form.get form (field_key "projects" idx "name") "")))
    (sanitize clean (Py.strip (Form.get form (field_key "projects" idx "description") "")))
    (Py.strip (Form.get form (field_key "projects" idx "link") "")).

Definition certification_record (clean : string -> string) (form : Form.t) (idx : string)
  : Certification.t :=
  Certification.mk
    (sanitize clean (Py.strip (Form.get form (field_key "certifications" idx "name") "")))
    (sanitize clean (Py.strip (Form.get form (field_key "certifications" idx "issuer") "")))
    (Py.strip (Form.get form (field_key "certifications" idx "year") "")).

(** What "exactly one record per distinct index token that satisfies the
    required-field predicate" says of a decoded group: the index tokens are
    pairwise distinct, they are the tokens whose anchor key is in the form,
    and the result is their records, in order, those without the required
    fields left out. *)
Definition one_record_per_token {R} (decoded : option (list R))
           (required : R -> bool) (record : string -> R)
           (tokens : list string) (anchor_key : string -> string)
           (form : Form.t) : Prop :=
  decoded = Some (filter required (map record tokens))
  /\ NoDup tokens
  /\ forall idx, In idx tokens <-> In (anchor_key idx) (Form.keys form).

(** The three sentences of [generate_fallback_bio] for the example of the
    specification. *)
Definition ada_templates : list string :=
  [ "I'm Ada, a Engineer with expertise in Python and Go. I'm passionate about creating impactful solutions and continuously learning new technologies.";
    "I'm a Engineer specializing in Python and Go. I combine technical expertise with creative problem-solving to deliver high-quality results.";
    "As a Engineer, I leverage Python and Go to build innovative solutions. I'm committed to writing clean code and collaborating effectively with teams." ].

(** The text [get_ai_response] takes from one answer of the service, if
    any: the stripped content of a 200 answer, when it has more than ten
    characters. *)
Definition accepted_answer (answer : Ai.Outcome) : option string :=
  match answer with
  | Ai.Ok200 (Some text) =>
      if Py.truthy (Py.strip text) && (10 <? Py.len (Py.strip text))
      then Some (Py.strip text) else None
  | _ => None
  end.

(** A resume under another primary key and with another creation time. *)
Definition resume_copy (new_id : Z) (created : Z) (r : Resume.t) : Resume.t :=
  Resume.mk new_id (Resume.user_id r) (Resume.name r) (Resume.profession r)
            (Resume.email r) (Resume.phone r) (Resume.linkedin r) (Resume.github r)
            (Resume.bio r) (Resume.skills r) (Resume.experiences r) (Resume.degree r)
            (Resume.institute r) (Resume.grad_year r) (Resume.profile_pic_url r)
            (Resume.template r) (Resume.projects r) (Resume.certifications r)
            (Some created).

(** The primary keys of the resume table are pairwise distinct. *)
Definition unique_ids (db : DB) : Prop := NoDup (map Resume.id (resumes db)).

(** The emails of the accounts table are pairwise distinct. *)
Definition unique_emails (st : AuthState) : Prop :=
  NoDup (map Account.email (accounts st)).

(** [n] applications of a method to a user. *)
Fixpoint repeated (f : User.t -> User.t) (n : nat) (u : User.t) : User.t :=
  match n with
  | O => u
  | S n' => repeated f n' (f u)
  end.

(* ================================================================== *)
(** ** Sample data *)
(* ================================================================== *)

Module Sample.

(** A free-tier user out of tokens, last refreshed on day 0. *)
Definition free_user : User.t := User.mk 1 0 "free" None (Some 0).

(** A resume of user 1 and a resume of user 2, both with stored lists. *)
Definition own_resume : Resume.t :=
  Resume.mk 10 1 "Ada" "Engineer" "" "" "" "" "bio" "Python,Go"
            (Json.column Json.of_experience [Experience.mk "Dev" "Acme" ""])
            "" "" "" None "classic" None None (Some 0).

Definition other_resume : Resume.t :=
  Resume.mk 11 2 "Bob" "Designer" "" "" "" "" "bio" "Figma"
            None "" "" "" None "classic" None None (Some 3600).

Definition db : DB := mkDB free_user [own_resume; other_resume] [].

(** The clock a day later, no API key, no answer from the AI service. *)
Definition env (draw : nat) : Env :=
  mkEnv 86400 None (fun _ => Ai.RequestFailed) draw
        (fun name => "20240101_000000_" ++ name) (fun _ => true).

(** The submission of the specification's example, with an empty bio. *)
Definition ada_form : Form.t :=
  [("name", "Ada"); ("profession", "Engineer"); ("skills", "Python,Go");
   ("bio", ""); ("template", "classic")].

(** A submission with three experience groups, one of them empty, and one
    project and one certification. *)
Definition groups_form : Form.t :=
  [("name", "Ada"); ("profession", "Engineer");
   ("experiences[0][job_title]", "Dev"); ("experiences[0][company]", "Acme");
   ("experiences[0][job_desc]", " built things ");
   ("experiences[x7][job_title]", ""); ("experiences[x7][company]", "  ");
   ("experiences[2][job_title]", ""); ("experiences[2][company]", "Initech");
   ("projects[1][name]", "Compiler"); ("projects[1][description]", "a > b");
   ("projects[1][link]", " http://x/?a>b ");
   ("certifications[k][name]", "Cert"); ("certifications[k][issuer]", "Org");
   ("certifications[k][year]", " 2020 ")].

(** A premium template, with ["classic"] the only free one. *)
Definition free_templates : list string := ["classic"].

Definition premium_request : Request :=
  mkRequest POST None [("name", "Ada"); ("profession", "Engineer");
                       ("template", "executive")] None.

(** An edit that submits no experience group, alone and with an upload of a
    refused type. *)
Definition edit_form : Form.t :=
  [("name", "Ada L."); ("profession", "Engineer"); ("skills", "Python")].

Definition edit_request : Request := mkRequest POST None edit_form None.

Definition edit_request_bad_upload : Request :=
  mkRequest POST None edit_form (Some (mkUpload "cv.exe" 1000)).

End Sample.

Module MoreSamples.

(** A request that is served: the free template, name and profession
    submitted, no upload. *)
Definition served_request : Request := mkRequest POST None Sample.ada_form None.

(** A request to duplicate a resume. *)
Definition duplicate_request : Request := mkRequest GET (Some "1") [] None.

(** The environment of [Sample.env] when no template file renders. *)
Definition env_without_templates : Env :=
  mkEnv 86400 None (fun _ => Ai.RequestFailed) 0
        (fun name => "20240101_000000_" ++ name) (fun _ => false).

(** A toy password hash and its check. *)
Definition toy_hash (password : string) : string := "hash:" ++ password.

Definition toy_check (hashed password : string) : bool :=
  (hashed =? toy_hash password)%string.

Definition ada_account : Account.t :=
  Account.mk "ada.lovelace" "Ada" "Lovelace" "ada@example.org" (toy_hash "Secret123") 3 "free".

Definition auth_state : AuthState := mkAuthState [ada_account] None.

Definition bob_data : RegisterData :=
  mkRegisterData "Bob" "Stone" "bob@example.org" "Passw0rd".

End MoreSamples.

(* ================================================================== *)
(** ** Properties of the string primitives *)
(* ================================================================== *)

Section StringFacts.

Lemma length_take (n : nat) (s : string) :
  String.length (Py.take n s) = Nat.min n (String.length s).
Proof.
  revert s; induction n as [|n IH]; intros [|c s]; simpl; auto.
Qed.

Lemma take_all (n : nat) (s : string) :
  (String.length s <= n)%nat -> Py.take n s = s.
Proof.
  revert s; induction n as [|n IH]; intros [|c s]; simpl; intros H;
    try reflexivity; try lia.
  f_equal; apply IH; lia.
Qed.

Lemma len_slice_to (s : string) (stop : Z) :
  0 <= stop -> Py.len (Py.slice_to s stop) <= stop.
Proof.
  intros H. unfold Py.slice_to, Py.len.
  destruct (0 <=? stop) eqn:E; [|lia].
  rewrite length_take. lia.
Qed.

Lemma slice_to_all (s : string) (stop : Z) :
  Py.len s <= stop -> Py.slice_to s stop = s.
Proof.
  unfold Py.slice_to, Py.len. intros H.
  destruct (0 <=? stop) eqn:E; [|lia].
  apply take_all. lia.
Qed.

Lemma falsy_iff (s : string) : Py.falsy s = true <-> s = "".
Proof. unfold Py.falsy. apply String.eqb_eq. Qed.

Lemma length_append (a b : string) :
  String.length (a ++ b) = (String.length a + String.length b)%nat.
Proof. induction a as [|c a IH]; simpl; auto. Qed.

Lemma append_assoc (a b c : string) : (a ++ b) ++ c = a ++ (b ++ c).
Proof. induction a as [|x a IH]; simpl; [reflexivity | now rewrite IH]. Qed.

Lemma append_inv_head (p a b : string) : p ++ a = p ++ b -> a = b.
Proof. induction p as [|c p IH]; simpl; intros H; [assumption | injection H; auto]. Qed.

Lemma append_inv_tail (a b s : string) : a ++ s = b ++ s -> a = b.
Proof.
  revert b; induction a as [|c a IH]; intros [|d b] H; simpl in *.
  - reflexivity.
  - apply (f_equal String.length) in H. simpl in H. rewrite length_append in H. lia.
  - apply (f_equal String.length) in H. simpl in H. rewrite length_append in H. lia.
  - injection H as -> H. f_equal. now apply IH.
Qed.

End StringFacts.

(* ================================================================== *)
(** ** The sanitizer: length and idempotence (C3, C4) *)
(* ================================================================== *)

(** C3, as the code has it: for every text and every non-negative
    [max_length], [sanitize_input] hands the cleaner at most [max_length]
    characters, and what it returns is no longer than [max_length] whenever
    the cleaner does not lengthen that truncated text. *)
Theorem sanitize_input_length_bound
        (clean : string -> string) (text : string) (max_length : Z) :
  0 <= max_length ->
  Py.len (clean (Py.slice_to text max_length))
    <= Py.len (Py.slice_to text max_length) ->
  Py.len (Py.slice_to text max_length) <= max_length
  /\ Py.len (sanitize_input clean text max_length) <= max_length.
Proof.
  intros Hm Hclean.
  pose proof (len_slice_to text max_length Hm) as Hslice.
  split; [exact Hslice|].
  unfold sanitize_input.
  destruct (Py.falsy text) eqn:E.
  - apply falsy_iff in E. subst text. unfold Py.len. simpl. lia.
  - lia.
Qed.

Lemma sanitize_input_length_bound_witness :
  Py.len (Py.slice_to "hello world" 5) <= 5
  /\ Py.len (sanitize_input Bleach.clean_text "hello world" 5) <= 5.
Proof.
  apply (sanitize_input_length_bound Bleach.clean_text "hello world" 5).
  - lia.
  - vm_compute. discriminate.
Defined.

(** C3 fails as stated: the cleaner escapes [&] after the truncation, so
    five characters come back as nine, and 5000 as 25000 under the default
    [max_length]; and a negative [max_length] bounds nothing. *)
Lemma sanitize_input_exceeds_max_length :
  Bleach.text_only "1 & 2" = true
  /\ sanitize_input Bleach.clean_text "1 & 2" 5 = "1 &amp; 2"
  /\ ~ Py.len (sanitize_input Bleach.clean_text "1 & 2" 5) <= 5
  /\ Bleach.text_only (Py.repeat "&" 5000) = true
  /\ Py.len (sanitize Bleach.clean_text (Py.repeat "&" 5000)) = 25000
  /\ ~ Py.len (sanitize_input Bleach.clean_text "abc" (-1)) <= -1.
Proof.
  repeat split; try (vm_compute; reflexivity); vm_compute; intros H; apply H; reflexivity.
Qed.

(** C4, as the code has it: sanitizing twice is sanitizing once whenever
    the first result fits in [max_length] and the cleaner is idempotent on
    the truncated text. *)
Theorem sanitize_input_idempotent_when_fits
        (clean : string -> string) (x : string) (max_length : Z) :
  Py.len (sanitize_input clean x max_length) <= max_length ->
  clean (clean (Py.slice_to x max_length)) = clean (Py.slice_to x max_length) ->
  sanitize_input clean (sanitize_input clean x max_length) max_length
  = sanitize_input clean x max_length.
Proof.
  intros Hfit Hidem.
  unfold sanitize_input at 1.
  destruct (Py.falsy (sanitize_input clean x max_length)) eqn:E; [reflexivity|].
  rewrite (slice_to_all _ _ Hfit).
  unfold sanitize_input in *.
  destruct (Py.falsy x) eqn:Ex.
  - congruence.
  - exact Hidem.
Qed.

Lemma sanitize_input_idempotent_when_fits_witness :
  sanitize_input Bleach.clean_text
                 (sanitize_input Bleach.clean_text "hello world" 5) 5
  = sanitize_input Bleach.clean_text "hello world" 5.
Proof.
  apply (sanitize_input_idempotent_when_fits Bleach.clean_text "hello world" 5).
  - vm_compute. discriminate.
  - reflexivity.
Defined.

(** C4 fails as stated: the text of 4999 letters and one [>] is cleaned to
    5003 characters; sanitizing that again cuts the escape [&gt;] after its
    [&], which is then escaped on its own. *)
Lemma sanitize_not_idempotent :
  let x := Py.repeat "a" 4999 ++ ">" in
  Bleach.text_only x = true
  /\ sanitize Bleach.clean_text x = Py.repeat "a" 4999 ++ "&gt;"
  /\ Bleach.text_only (Py.slice_to (sanitize Bleach.clean_text x) DEFAULT_MAX_LENGTH) = true
  /\ sanitize Bleach.clean_text (sanitize Bleach.clean_text x)
     = Py.repeat "a" 4999 ++ "&amp;"
  /\ sanitize Bleach.clean_text (sanitize Bleach.clean_text x)
     <> sanitize Bleach.clean_text x.
Proof.
  cbv zeta.
  repeat split; try (vm_compute; reflexivity).
  apply String.eqb_neq. vm_compute. reflexivity.
Qed.

(* ================================================================== *)
(** ** The purchase ledger and the plan gate (C6, C7) *)
(* ================================================================== *)

(** C7: a count that is no known pack size (1 and 5) is rejected with the
    database as it was, balance and purchases included; a known pack adds
    exactly [count] tokens and records exactly one purchase, at 50 for the
    1-pack and 100 for the 5-pack. *)
Theorem buy_token_known_packs_only (db : DB) (count : Z) :
  (count <> 1 /\ count <> 5 ->
   buy_token db count
   = (db, Redirect "pricing" None [("Invalid token pack selected.", "error")]))
  /\ (count = 1 \/ count = 5 ->
      let db' := fst (buy_token db count) in
      User.tokens (current_user db') = User.tokens (current_user db) + count
      /\ User.id (current_user db') = User.id (current_user db)
      /\ User.plan (current_user db') = User.plan (current_user db)
      /\ resumes db' = resumes db
      /\ purchases db'
         = (purchases db
            ++ [Purchase.mk (User.id (current_user db))
                            (if count =? 1 then 50 else 100)
                            (Py.str_of_int count ++ " Token Pack")])%list).
Proof.
  split.
  - intros [H1 H5]. unfold buy_token, price_map_get.
    destruct (count =? 1) eqn:E1; [apply Z.eqb_eq in E1; contradiction|].
    destruct (count =? 5) eqn:E5; [apply Z.eqb_eq in E5; contradiction|].
    reflexivity.
  - intros [-> | ->]; cbv zeta; unfold buy_token; simpl; repeat split.
Qed.

(** An ultimate-plan user with the sentinel balance stays so under
    [deduct_token]. *)
Lemma deduct_token_ultimate (u : User.t) :
  SpecModels.is_ultimate_user u = true -> SpecModels.deduct_token u = u.
Proof. intros H. unfold SpecModels.deduct_token. now rewrite H. Qed.

Lemma repeated_deduct_token_ultimate (n : nat) (u : User.t) :
  SpecModels.is_ultimate_user u = true ->
  repeated SpecModels.deduct_token n u = u.
Proof.
  revert u; induction n as [|n IH]; intros u H; simpl; [reflexivity|].
  rewrite (deduct_token_ultimate u H). now apply IH.
Qed.

(** C6: after [upgrade("ultimate")] the balance is the unlimited sentinel
    9999 and the plan is ultimate; any number of [deduct_token] calls after
    it leaves the user, and so the balance, as it is; and [deduct_token]
    preserves "ultimate plan with the sentinel balance" on every user. *)
Theorem upgrade_ultimate_then_deduct (db : DB) (n : nat) (u : User.t) :
  let upgraded := current_user (fst (upgrade db "ultimate")) in
  User.tokens upgraded = 9999
  /\ User.plan upgraded = "ultimate"
  /\ repeated SpecModels.deduct_token n upgraded = upgraded
  /\ User.tokens (repeated SpecModels.deduct_token n upgraded) = 9999
  /\ (SpecModels.is_ultimate_user u && (User.tokens u =? 9999) = true ->
      SpecModels.is_ultimate_user (SpecModels.deduct_token u)
      && (User.tokens (SpecModels.deduct_token u) =? 9999) = true).
Proof.
  cbv zeta.
  assert (Hu : SpecModels.is_ultimate_user
                 (current_user (fst (upgrade db "ultimate"))) = true)
    by reflexivity.
  repeat split.
  - now apply repeated_deduct_token_ultimate.
  - now rewrite repeated_deduct_token_ultimate.
  - intros H. apply andb_true_iff in H as [H1 H2].
    rewrite (deduct_token_ultimate u H1). now rewrite H1, H2.
Qed.

(* ================================================================== *)
(** ** Deleting a resume (C9) *)
(* ================================================================== *)

(** C9: a delete request on a resume whose owner is not the requesting user
    leaves the database as it is, that row included, and answers with the
    redirect that flashes "Unauthorized". *)
Theorem delete_resume_not_owner (db : DB) (resume_id : Z) (resume : Resume.t) :
  get_resume db resume_id = Some resume ->
  Resume.user_id resume <> User.id (current_user db) ->
  delete_resume db resume_id
  = (db, Redirect "start" None [("Unauthorized", "error")]).
Proof.
  intros Hget Hown. unfold delete_resume. rewrite Hget.
  destruct (Resume.user_id resume =? User.id (current_user db)) eqn:E.
  - apply Z.eqb_eq in E. contradiction.
  - reflexivity.
Qed.

Lemma delete_resume_not_owner_witness :
  delete_resume Sample.db 11
  = (Sample.db, Redirect "start" None [("Unauthorized", "error")]).
Proof.
  apply (delete_resume_not_owner Sample.db 11 Sample.other_resume).
  - reflexivity.
  - vm_compute. discriminate.
Defined.

(* ================================================================== *)
(** ** The gate of [generate] (C2) *)
(* ================================================================== *)

(** C2, as the code has it: when the selected template is premium and the
    (refreshed) user is neither pro nor ultimate, or when the (refreshed)
    user has no tokens, [generate] answers with the redirect to the pricing
    page; no resume is inserted, no purchase is recorded and no token is
    deducted: the database is the one committed by the refresh of step 1,
    so the balance is the refreshed balance, and nothing at all changes when
    the refresh leaves the user as it was. *)
Theorem generate_refused
        (clean : string -> string) (M : UserMethods) (FREE_TEMPLATES : list string)
        (db : DB) (env : Env) (req : Request) :
  let user := reset_tokens_if_needed M (now env) (current_user db) in
  let template := Form.get (form req) "template" "classic" in
  (existsb (String.eqb template) FREE_TEMPLATES = false
   /\ is_pro_user M user = false /\ is_ultimate_user M user = false)
  \/ has_tokens M user = false ->
  let result := generate clean M FREE_TEMPLATES db env req in
  fst result = with_user user db
  /\ resumes (fst result) = resumes db
  /\ purchases (fst result) = purchases db
  /\ User.tokens (current_user (fst result)) = User.tokens user
  /\ (user = current_user db -> fst result = db)
  /\ exists message, snd result = Redirect "pricing" None [(message, "error")].
Proof.
  cbv zeta. intros H.
  assert (Hgen :
    exists message,
      generate clean M FREE_TEMPLATES db env req
      = (with_user (reset_tokens_if_needed M (now env) (current_user db)) db,
         Redirect "pricing" None [(message, "error")])).
  { unfold generate.
    destruct H as [(Hfree & Hpro & Hult) | Htok].
    - rewrite Hfree, Hpro, Hult. simpl. eexists. reflexivity.
    - rewrite Htok. simpl.
      destruct (negb _ && negb _); eexists; reflexivity. }
  destruct Hgen as [message Hgen]. rewrite Hgen. simpl.
  repeat split.
  - intros Hsame. rewrite Hsame. now destruct db.
  - now exists message.
Qed.

Lemma generate_refused_witness :
  let result := generate Bleach.clean_text (SpecModels.methods 3) Sample.free_templates
                         Sample.db (Sample.env 0) Sample.premium_request in
  fst result = with_user (SpecModels.reset_tokens_if_needed 3 86400 Sample.free_user)
                         Sample.db
  /\ resumes (fst result) = resumes Sample.db
  /\ purchases (fst result) = purchases Sample.db
  /\ User.tokens (current_user (fst result))
     = User.tokens (SpecModels.reset_tokens_if_needed 3 86400 Sample.free_user)
  /\ (SpecModels.reset_tokens_if_needed 3 86400 Sample.free_user = current_user Sample.db ->
      fst result = Sample.db)
  /\ exists message, snd result = Redirect "pricing" None [(message, "error")].
Proof.
  apply (generate_refused Bleach.clean_text (SpecModels.methods 3)
                          Sample.free_templates Sample.db (Sample.env 0)
                          Sample.premium_request).
  left. repeat split.
Defined.

(** C2 fails as stated: a free-tier user with no tokens who asks for a
    premium template a day after the last refresh is refused, with no resume
    inserted, and yet leaves with the balance restored by the refresh that
    [generate] commits before its checks (3 tokens here instead of 0). *)
Lemma generate_refusal_keeps_refresh :
  let result := generate Bleach.clean_text (SpecModels.methods 3) Sample.free_templates
                         Sample.db (Sample.env 0) Sample.premium_request in
  snd result
  = Redirect "pricing" None
             [("This template is only available for Pro or Ultimate users.", "error")]
  /\ resumes (fst result) = resumes Sample.db
  /\ User.tokens (current_user Sample.db) = 0
  /\ User.tokens (current_user (fst result)) = 3
  /\ User.tokens (current_user (fst result)) <> User.tokens (current_user Sample.db).
Proof.
  cbv zeta. repeat split. vm_compute. discriminate.
Qed.

(* ================================================================== *)
(** ** The decoding of the form groups (C1) *)
(* ================================================================== *)

Section DecoderFacts.

Lemma keys_incl (form : Form.t) (k : string) :
  In k (Form.keys form) -> In k (map fst form).
Proof.
  induction form as [|[k0 v] rest IH]; simpl; [tauto|].
  intros [H | H]; [now left|].
  apply filter_In in H as [H _]. right. now apply IH.
Qed.

Lemma keys_NoDup (form : Form.t) : NoDup (Form.keys form).
Proof.
  induction form as [|[k v] rest IH]; simpl; constructor.
  - intros H. apply filter_In in H as [_ H].
    now rewrite String.eqb_refl in H.
  - now apply NoDup_filter.
Qed.

Lemma split_nonempty (sep : ascii) (s : string) :
  exists h t, Py.split sep s = h :: t.
Proof.
  induction s as [|c s IH]; simpl.
  - now exists EmptyString, [].
  - destruct (Ascii.eqb c sep); [now eauto|].
    destruct IH as (h & t & ->). now eauto.
Qed.

Lemma split_contains (sep : ascii) (s : string) :
  Py.contains_char sep s = true ->
  exists a b rest, Py.split sep s = a :: b :: rest.
Proof.
  induction s as [|c s IH]; simpl; [discriminate|].
  destruct (Ascii.eqb c sep); simpl.
  - intros _. destruct (split_nonempty sep s) as (h & t & ->). now eauto.
  - intros H. destruct (IH H) as (a & b & rest & ->). now eauto.
Qed.

Lemma startswith_contains (c : ascii) (p key : string) :
  Py.startswith key p = true ->
  Py.contains_char c p = true -> Py.contains_char c key = true.
Proof.
  revert key; induction p as [|b p IH]; simpl; [discriminate|].
  intros [|a key]; [discriminate|]. simpl.
  intros H Hc. apply andb_true_iff in H as [Hab Hrest].
  apply Ascii.eqb_eq in Hab. subst b.
  apply orb_true_iff in Hc as [Hc | Hc]; apply orb_true_iff; [now left|].
  right. now apply IH.
Qed.

(** The index expression of the loops never raises on a key that starts
    with a bracketed prefix. *)
Lemma index_token_defined (key : string) :
  Py.contains_char "[" key = true -> exists idx, index_token key = Some idx.
Proof.
  intros H. unfold index_token.
  destruct (split_contains _ _ H) as (a & b & rest & ->). simpl.
  destruct (split_nonempty "]" b) as (h & t & ->). simpl. now eauto.
Qed.

Lemma experience_key_token (key : string) :
  is_experience_key key = true -> exists idx, index_token key = Some idx.
Proof.
  intros H. apply andb_true_iff in H as [H _].
  apply index_token_defined.
  now apply (startswith_contains "[" "experiences[").
Qed.

Lemma project_key_token (key : string) :
  is_project_key key = true -> exists idx, index_token key = Some idx.
Proof.
  intros H. apply andb_true_iff in H as [H _].
  apply index_token_defined.
  now apply (startswith_contains "[" "projects[").
Qed.

Lemma certification_key_token (key : string) :
  is_certification_key key = true -> exists idx, index_token key = Some idx.
Proof.
  intros H. apply andb_true_iff in H as [H _].
  apply index_token_defined.
  now apply (startswith_contains "[" "certifications[").
Qed.

Lemma drop_append (a b : string) : Py.drop (String.length a) (a ++ b) = b.
Proof. induction a as [|c a IH]; simpl; [now destruct b | exact IH]. Qed.

Lemma endswith_append (a b : string) : Py.endswith (a ++ b) b = true.
Proof.
  unfold Py.endswith. rewrite length_append.
  apply andb_true_iff; split.
  - apply Nat.leb_le. lia.
  - replace (String.length a + String.length b - String.length b)%nat
      with (String.length a) by lia.
    rewrite drop_append. apply String.eqb_refl.
Qed.

Lemma field_key_endswith (prefix idx field : string) :
  Py.endswith (field_key prefix idx field) ("[" ++ field ++ "]") = true.
Proof.
  unfold field_key.
  replace (prefix ++ "[" ++ idx ++ "][" ++ field ++ "]")
    with ((prefix ++ "[" ++ idx ++ "]") ++ ("[" ++ field ++ "]")).
  - apply endswith_append.
  - rewrite !append_assoc. reflexivity.
Qed.

Lemma field_key_inj (prefix field idx1 idx2 : string) :
  field_key prefix idx1 field = field_key prefix idx2 field -> idx1 = idx2.
Proof.
  unfold field_key. intros H.
  apply append_inv_head in H. apply append_inv_head in H.
  now apply append_inv_tail in H.
Qed.

Lemma experience_anchor (idx : string) :
  is_experience_key (field_key "experiences" idx "job_title") = true.
Proof.
  unfold is_experience_key. apply andb_true_iff; split.
  - unfold field_key. simpl. reflexivity.
  - apply (field_key_endswith "experiences" idx "job_title").
Qed.

Lemma project_anchor (idx : string) :
  is_project_key (field_key "projects" idx "name") = true.
Proof.
  unfold is_project_key. apply andb_true_iff; split.
  - unfold field_key. simpl. reflexivity.
  - apply (field_key_endswith "projects" idx "name").
Qed.

Lemma certification_anchor (idx : string) :
  is_certification_key (field_key "certifications" idx "name") = true.
Proof.
  unfold is_certification_key. apply andb_true_iff; split.
  - unfold field_key. simpl. reflexivity.
  - apply (field_key_endswith "certifications" idx "name").
Qed.

(** The loop appends, for each index token in turn, the record its body
    builds, and it never raises. *)
Lemma decode_loop_eq {R} (is_anchor : string -> bool) (body : string -> option R)
      (ks : list string) (acc : list R) :
  (forall key, is_anchor key = true -> exists idx, index_token key = Some idx) ->
  decode_loop is_anchor body ks acc
  = Some (acc ++ flat_map (emitted body) (tokens_of is_anchor ks))%list.
Proof.
  intros Hdef. revert acc.
  induction ks as [|key rest IH]; intros acc; simpl.
  - now rewrite app_nil_r.
  - unfold tokens_of. simpl. destruct (is_anchor key) eqn:E.
    + destruct (Hdef key E) as [idx Hidx]. simpl. rewrite Hidx. simpl.
      unfold emitted at 1.
      destruct (body idx) as [r|]; rewrite IH; unfold tokens_of.
      * now rewrite <- app_assoc.
      * reflexivity.
    + apply IH.
Qed.

Lemma emitted_required {R} (required : R -> bool) (record : string -> R)
      (body : string -> option R) (tokens : list string) :
  (forall idx, body idx = if required (record idx) then Some (record idx) else None) ->
  flat_map (emitted body) tokens = filter required (map record tokens).
Proof.
  intros Hbody. induction tokens as [|idx rest IH]; simpl; [reflexivity|].
  unfold emitted at 1. rewrite Hbody, IH.
  now destruct (required (record idx)).
Qed.

Section Group.

Variable is_anchor : string -> bool.
Variables prefix anchor : string.

Hypothesis anchor_key_passes :
  forall idx, is_anchor (field_key prefix idx anchor) = true.

Lemma token_in_keys (ks : list string) (idx : string) :
  forallb (well_formed_key is_anchor prefix anchor) ks = true ->
  In idx (tokens_of is_anchor ks) -> In (field_key prefix idx anchor) ks.
Proof.
  intros Hwf Hin. unfold tokens_of in Hin.
  apply in_flat_map in Hin as (key & Hkey & Hidx).
  apply filter_In in Hkey as [Hkey Hanchor].
  rewrite forallb_forall in Hwf. specialize (Hwf key Hkey).
  unfold well_formed_key in Hwf. rewrite Hanchor in Hwf.
  destruct (index_token key) as [idx'|]; [|contradiction].
  destruct Hidx as [<- | []].
  apply String.eqb_eq in Hwf. now rewrite <- Hwf.
Qed.

Lemma key_in_tokens (ks : list string) (idx : string) :
  forallb (well_formed_key is_anchor prefix anchor) ks = true ->
  In (field_key prefix idx anchor) ks -> In idx (tokens_of is_anchor ks).
Proof.
  intros Hwf Hin. unfold tokens_of.
  apply in_flat_map. exists (field_key prefix idx anchor). split.
  - apply filter_In. split; [assumption | apply anchor_key_passes].
  - rewrite forallb_forall in Hwf. specialize (Hwf _ Hin).
    unfold well_formed_key in Hwf. rewrite anchor_key_passes in Hwf.
    destruct (index_token (field_key prefix idx anchor)) as [idx'|];
      [|discriminate].
    apply String.eqb_eq in Hwf. apply field_key_inj in Hwf. subst idx'.
    now left.
Qed.

Lemma tokens_NoDup (ks : list string) :
  NoDup ks -> forallb (well_formed_key is_anchor prefix anchor) ks = true ->
  NoDup (tokens_of is_anchor ks).
Proof.
  induction ks as [|key rest IH]; intros Hnd Hwf.
  - constructor.
  - inversion Hnd as [|? ? Hnotin Hrest]; subst.
    simpl in Hwf. apply andb_true_iff in Hwf as [Hkey Hwf].
    specialize (IH Hrest Hwf).
    unfold tokens_of. simpl. unfold well_formed_key in Hkey.
    destruct (is_anchor key) eqn:E; [|exact IH].
    simpl. destruct (index_token key) as [idx|]; [|discriminate].
    apply String.eqb_eq in Hkey. simpl. constructor; [|exact IH].
    intros Hin. apply Hnotin. rewrite Hkey.
    now apply token_in_keys.
Qed.

End Group.

End DecoderFacts.

(** C1: on a well-formed bracketed submission each of the three loops
    returns, without raising, exactly one record per distinct index token
    whose (stripped and sanitized) fields satisfy the group's required-field
    predicate: job title or company non-empty for an experience, name
    non-empty for a project and for a certification.  The index tokens are
    pairwise distinct and are those whose anchor key was submitted.  An empty
    submission decodes to no record. *)
Theorem decoder_one_record_per_index_token
        (clean : string -> string) (form : Form.t) :
  well_formed form = true ->
  one_record_per_token (decode_experiences clean form)
                       experience_required (experience_record clean form)
                       (index_tokens is_experience_key form)
                       (fun idx => field_key "experiences" idx "job_title") form
  /\ one_record_per_token (decode_projects clean form)
                          project_required (project_record clean form)
                          (index_tokens is_project_key form)
                          (fun idx => field_key "projects" idx "name") form
  /\ one_record_per_token (decode_certifications clean form)
                          certification_required (certification_record clean form)
                          (index_tokens is_certification_key form)
                          (fun idx => field_key "certifications" idx "name") form
  /\ decode_experiences clean [] = Some []
  /\ decode_projects clean [] = Some []
  /\ decode_certifications clean [] = Some [].
Proof.
  intros Hwf. unfold well_formed in Hwf.
  apply andb_true_iff in Hwf as [Hwf Hcert].
  apply andb_true_iff in Hwf as [Hexp Hproj].
  pose proof (keys_NoDup form) as Hnd.
  repeat split; try reflexivity.
  - unfold decode_experiences.
    rewrite (decode_loop_eq _ _ _ _ experience_key_token). simpl.
    f_equal. now apply emitted_required.
  - now apply (tokens_NoDup is_experience_key "experiences" "job_title").
  - now apply (token_in_keys is_experience_key "experiences" "job_title").
  - now apply (key_in_tokens is_experience_key "experiences" "job_title"
                             experience_anchor).
  - unfold decode_projects.
    rewrite (decode_loop_eq _ _ _ _ project_key_token). simpl.
    f_equal. now apply emitted_required.
  - now apply (tokens_NoDup is_project_key "projects" "name").
  - now apply (token_in_keys is_project_key "projects" "name").
  - now apply (key_in_tokens is_project_key "projects" "name" project_anchor).
  - unfold decode_certifications.
    rewrite (decode_loop_eq _ _ _ _ certification_key_token). simpl.
    f_equal. now apply emitted_required.
  - now apply (tokens_NoDup is_certification_key "certifications" "name").
  - now apply (token_in_keys is_certification_key "certifications" "name").
  - now apply (key_in_tokens is_certification_key "certifications" "name"
                             certification_anchor).
Qed.

Lemma decoder_one_record_per_index_token_witness :
  well_formed Sample.groups_form = true
  /\ index_tokens is_experience_key Sample.groups_form = ["0"; "x7"; "2"]
  /\ decode_experiences Bleach.clean_text Sample.groups_form
     = Some [Experience.mk "Dev" "Acme" "built things";
             Experience.mk "" "Initech" ""]
  /\ one_record_per_token
       (decode_experiences Bleach.clean_text Sample.groups_form)
       experience_required (experience_record Bleach.clean_text Sample.groups_form)
       (index_tokens is_experience_key Sample.groups_form)
       (fun idx => field_key "experiences" idx "job_title") Sample.groups_form.
Proof.
  assert (Hwf : well_formed Sample.groups_form = true)
    by (vm_compute; reflexivity).
  split; [exact Hwf|].
  split; [vm_compute; reflexivity|]. split; [vm_compute; reflexivity|].
  exact (proj1 (decoder_one_record_per_index_token
                  Bleach.clean_text Sample.groups_form Hwf)).
Defined.

(* ================================================================== *)
(** ** What the decoders store (C8, C10) *)
(* ================================================================== *)

Lemma decode_experiences_eq (clean : string -> string) (form : Form.t) :
  decode_experiences clean form
  = Some (filter experience_required
                 (map (experience_record clean form)
                      (index_tokens is_experience_key form))).
Proof.
  unfold decode_experiences.
  rewrite (decode_loop_eq _ _ _ _ experience_key_token). simpl.
  f_equal. now apply emitted_required.
Qed.

Lemma decode_projects_eq (clean : string -> string) (form : Form.t) :
  decode_projects clean form
  = Some (filter project_required
                 (map (project_record clean form)
                      (index_tokens is_project_key form))).
Proof.
  unfold decode_projects.
  rewrite (decode_loop_eq _ _ _ _ project_key_token). simpl.
  f_equal. now apply emitted_required.
Qed.

Lemma decode_certifications_eq (clean : string -> string) (form : Form.t) :
  decode_certifications clean form
  = Some (filter certification_required
                 (map (certification_record clean form)
                      (index_tokens is_certification_key form))).
Proof.
  unfold decode_certifications.
  rewrite (decode_loop_eq _ _ _ _ certification_key_token). simpl.
  f_equal. now apply emitted_required.
Qed.

(** The index token of an anchor key of the form is among the tokens the
    loop visits. *)
Lemma anchor_token_listed (is_anchor : string -> bool) (form : Form.t)
      (key idx : string) :
  In key (Form.keys form) ->
  is_anchor key = true ->
  index_token key = Some idx ->
  In idx (index_tokens is_anchor form).
Proof.
  intros Hkey Hanchor Hidx. unfold index_tokens, tokens_of.
  apply in_flat_map. exists key. split.
  - apply filter_In. now split.
  - rewrite Hidx. now left.
Qed.

(** The POST branch of [edit_resume] never raises once the upload is
    checked: it overwrites the three JSON columns with the encodings of the
    decoded lists. *)
Lemma edit_apply_columns (clean : string -> string) (original : Resume.t)
      (form : Form.t) (pic_url : option string) :
  exists updated,
    edit_apply clean original form pic_url = Some updated
    /\ Resume.id updated = Resume.id original
    /\ Resume.user_id updated = Resume.user_id original
    /\ Resume.experiences updated
       = Json.column Json.of_experience
           (filter experience_required
                   (map (experience_record clean form)
                        (index_tokens is_experience_key form)))
    /\ Resume.projects updated
       = Json.column Json.of_project
           (filter project_required
                   (map (project_record clean form)
                        (index_tokens is_project_key form)))
    /\ Resume.certifications updated
       = Json.column Json.of_certification
           (filter certification_required
                   (map (certification_record clean form)
                        (index_tokens is_certification_key form))).
Proof.
  unfold edit_apply.
  rewrite decode_experiences_eq, decode_projects_eq, decode_certifications_eq.
  eexists. split; [reflexivity|]. simpl. repeat split.
Qed.

(** Steps 5 to 9 of [generate] raise only for a missing name or
    profession; otherwise the row and the rendered lists hold the decoded
    groups. *)
Lemma generate_build_columns (clean : string -> string) (env : Env) (db : DB)
      (form : Form.t) (template : string) (pic_url : option string) :
  match generate_build clean env db form template pic_url with
  | Some view =>
      view_projects view
      = filter project_required
               (map (project_record clean form) (index_tokens is_project_key form))
      /\ view_certifications view
         = filter certification_required
                  (map (certification_record clean form)
                       (index_tokens is_certification_key form))
      /\ Resume.projects (view_resume view)
         = Json.column Json.of_project (view_projects view)
      /\ Resume.certifications (view_resume view)
         = Json.column Json.of_certification (view_certifications view)
  | None => Form.lookup form "name" = None \/ Form.lookup form "profession" = None
  end.
Proof.
  unfold generate_build, generate_step_bio.
  rewrite decode_experiences_eq, decode_projects_eq, decode_certifications_eq.
  destruct (Form.lookup form "name") as [name|];
    destruct (Form.lookup form "profession") as [profession|];
    destruct (Py.falsy _); simpl; auto.
Qed.

(** C10: in both decoding paths a project's link and a certification's year
    are stored as submitted, with only the surrounding whitespace stripped
    and without [sanitize], while the name and the description, or the
    issuer, of the same record go through [sanitize].  The decoders return
    exactly the records written out below, one for each index token whose
    sanitized name is non-empty, in the order of the tokens; so every
    anchor key of the form whose record has a name yields the record with
    its link, or year, stripped only.  The edit path stores the encodings
    of these lists, and so does the create path, which raises only when
    the name or the profession is missing. *)
Theorem link_and_year_stored_unsanitized
        (clean : string -> string) (form : Form.t) :
  let project idx :=
    Project.mk
      (sanitize clean (Py.strip (Form.get form (field_key "projects" idx "name") "")))
      (sanitize clean
                (Py.strip (Form.get form (field_key "projects" idx "description") "")))
      (Py.strip (Form.get form (field_key "projects" idx "link") "")) in
  let certification idx :=
    Certification.mk
      (sanitize clean
                (Py.strip (Form.get form (field_key "certifications" idx "name") "")))
      (sanitize clean
                (Py.strip (Form.get form (field_key "certifications" idx "issuer") "")))
      (Py.strip (Form.get form (field_key "certifications" idx "year") "")) in
  let projects :=
    filter (fun p => Py.truthy (Project.name p))
           (map project (index_tokens is_project_key form)) in
  let certifications :=
    filter (fun c => Py.truthy (Certification.name c))
           (map certification (index_tokens is_certification_key form)) in
  decode_projects clean form = Some projects
  /\ decode_certifications clean form = Some certifications
  /\ (forall key idx,
        In key (Form.keys form) ->
        is_project_key key = true ->
        index_token key = Some idx ->
        Py.truthy (Project.name (project idx)) = true ->
        In (project idx) projects)
  /\ (forall key idx,
        In key (Form.keys form) ->
        is_certification_key key = true ->
        index_token key = Some idx ->
        Py.truthy (Certification.name (certification idx)) = true ->
        In (certification idx) certifications)
  /\ (forall original pic_url,
        exists updated,
          edit_apply clean original form pic_url = Some updated
          /\ Resume.projects updated = Json.column Json.of_project projects
          /\ Resume.certifications updated
             = Json.column Json.of_certification certifications)
  /\ (forall env db template pic_url,
        match generate_build clean env db form template pic_url with
        | Some view =>
            view_projects view = projects
            /\ view_certifications view = certifications
            /\ Resume.projects (view_resume view)
               = Json.column Json.of_project projects
            /\ Resume.certifications (view_resume view)
               = Json.column Json.of_certification certifications
        | None =>
            Form.lookup form "name" = None \/ Form.lookup form "profession" = None
        end).
Proof.
  intros project certification projects certifications.
  split; [exact (decode_projects_eq clean form)|].
  split; [exact (decode_certifications_eq clean form)|].
  split; [|split; [|split]].
  - intros key idx Hkey Hanchor Hidx Hname.
    apply filter_In. split; [|exact Hname].
    apply in_map. apply (anchor_token_listed is_project_key form key idx); assumption.
  - intros key idx Hkey Hanchor Hidx Hname.
    apply filter_In. split; [|exact Hname].
    apply in_map.
    apply (anchor_token_listed is_certification_key form key idx); assumption.
  - intros original pic_url.
    destruct (edit_apply_columns clean original form pic_url)
      as (updated & Heq & _ & _ & _ & Hp & Hc).
    now exists updated.
  - intros env db template pic_url.
    pose proof (generate_build_columns clean env db form template pic_url) as H.
    destruct (generate_build clean env db form template pic_url) as [view|];
      [|exact H].
    destruct H as (Hp & Hc & Hrp & Hrc).
    rewrite Hrp, Hrc, Hp, Hc. now repeat split.
Qed.

(** On the sample submission the link keeps its [>] while the description,
    which is sanitized, comes back with the [>] escaped. *)
Example link_kept_description_escaped :
  decode_projects Bleach.clean_text Sample.groups_form
  = Some [Project.mk "Compiler" "a &gt; b" "http://x/?a>b"]
  /\ decode_certifications Bleach.clean_text Sample.groups_form
     = Some [Certification.mk "Cert" "Org" "2020"].
Proof. split; vm_compute; reflexivity. Qed.

(** The row that [find_owned] returns has the id asked for, belongs to the
    requesting user, and is a row of the table. *)
Lemma find_owned_some (db : DB) (resume_id : Z) (r : Resume.t) :
  find_owned db resume_id = Some r ->
  In r (resumes db) /\ Resume.id r = resume_id
  /\ Resume.user_id r = User.id (current_user db).
Proof.
  unfold find_owned. intros H. apply find_some in H as [Hin H].
  apply andb_true_iff in H as [H1 H2].
  apply Z.eqb_eq in H1, H2. now repeat split.
Qed.

(** After the commit of an edited row, the owner finds the edited row. *)
Lemma find_owned_update (db : DB) (resume_id : Z) (original updated : Resume.t) :
  find_owned db resume_id = Some original ->
  Resume.id updated = Resume.id original ->
  Resume.user_id updated = Resume.user_id original ->
  find_owned (update_resume updated db) resume_id = Some updated.
Proof.
  intros Hfind Hid Huid.
  apply find_owned_some in Hfind as (Hin & Hrid & Hown).
  unfold find_owned, update_resume. simpl.
  rewrite Hid, Hrid.
  induction (resumes db) as [|r rest IH]; [contradiction|].
  simpl. destruct (Resume.id r =? resume_id) eqn:E.
  - simpl. rewrite Hid, Hrid, Huid, Hown.
    now rewrite !Z.eqb_refl.
  - simpl. rewrite E. simpl.
    destruct Hin as [-> | Hin]; [|now apply IH].
    rewrite Hrid, Z.eqb_refl in E. discriminate.
Qed.

Lemma rsplit1_shape (sep : ascii) (s : string) :
  (Py.contains_char sep s = false /\ Py.rsplit1 sep s = [s])
  \/ (Py.contains_char sep s = true /\ exists a b, Py.rsplit1 sep s = [a; b]).
Proof.
  induction s as [|c s IH]; simpl; [now left|].
  destruct IH as [[Hc ->] | [Hc (a & b & ->)]]; rewrite Hc.
  - destruct (Ascii.eqb c sep); simpl; [right | left]; split; eauto.
  - right. rewrite orb_true_r. split; eauto.
Qed.

(** The extension expression of the upload check never raises, and so
    neither does the check. *)
Lemma file_ext_defined (name : string) : exists ext, file_ext name = Some ext.
Proof.
  unfold file_ext.
  destruct (rsplit1_shape "." name) as [[Hc _] | [Hc (a & b & Hs)]]; rewrite Hc.
  - now eauto.
  - rewrite Hs. simpl. now eauto.
Qed.

Lemma check_pic_never_raises (env : Env) (pic : option Upload) :
  check_pic env pic <> PicRaised.
Proof.
  unfold check_pic. destruct pic as [pic|]; [|discriminate].
  destruct (Py.truthy (filename pic)); [|discriminate].
  destruct (file_ext_defined (filename pic)) as [ext ->].
  destruct (negb _); [discriminate|].
  destruct (_ <? _); discriminate.
Qed.

(** C8, as the code has it: an edit submission that reaches the save (a
    POST by the owner, without the duplicate flag, whose upload, if any, is
    not refused) replaces the three stored JSON lists wholesale by the
    encodings of the decoded submission; a submission with no experience
    group clears the stored experiences. *)
Theorem edit_replaces_lists_wholesale
        (clean : string -> string) (db : DB) (env : Env) (resume_id : Z)
        (req : Request) (original : Resume.t) :
  find_owned db resume_id = Some original ->
  duplicate req <> Some "1" ->
  method req = POST ->
  (forall message, check_pic env (profile_pic req) <> PicRefused message) ->
  exists updated,
    edit_resume clean db env resume_id req
    = (update_resume updated db,
       Redirect "my_resumes" None [("Resume updated successfully!", "success")])
    /\ find_owned (update_resume updated db) resume_id = Some updated
    /\ Resume.experiences updated
       = Json.column Json.of_experience
           (filter experience_required
                   (map (experience_record clean (form req))
                        (index_tokens is_experience_key (form req))))
    /\ Resume.projects updated
       = Json.column Json.of_project
           (filter project_required
                   (map (project_record clean (form req))
                        (index_tokens is_project_key (form req))))
    /\ Resume.certifications updated
       = Json.column Json.of_certification
           (filter certification_required
                   (map (certification_record clean (form req))
                        (index_tokens is_certification_key (form req))))
    /\ (index_tokens is_experience_key (form req) = [] ->
        Resume.experiences updated = None).
Proof.
  intros Hfind Hdup Hpost Hrefused.
  pose proof (check_pic_never_raises env (profile_pic req)) as Hraised.
  set (pic_url := match check_pic env (profile_pic req) with
                  | PicStored url => Some url
                  | _ => Resume.profile_pic_url original
                  end).
  destruct (edit_apply_columns clean original (form req) pic_url)
    as (updated & Happly & Hid & Huid & Hexp & Hproj & Hcert).
  exists updated.
  split; [|split; [|split; [|split; [|split]]]]; try assumption.
  - unfold edit_resume. rewrite Hfind.
    assert (Hflag : match duplicate req with
                    | Some d => (d =? "1")%string
                    | None => false
                    end = false).
    { destruct (duplicate req) as [d|]; [|reflexivity].
      apply String.eqb_neq. intros ->. now apply Hdup. }
    rewrite Hflag, Hpost. subst pic_url.
    destruct (check_pic env (profile_pic req)) as [|message|url|];
      try (now rewrite Happly).
    + now elim (Hrefused message).
    + now elim Hraised.
  - now apply (find_owned_update db resume_id original).
  - intros Hnone. rewrite Hexp, Hnone. reflexivity.
Qed.

Lemma edit_replaces_lists_wholesale_witness :
  Resume.experiences Sample.own_resume <> None
  /\ exists updated,
    edit_resume Bleach.clean_text Sample.db (Sample.env 0) 10 Sample.edit_request
    = (update_resume updated Sample.db,
       Redirect "my_resumes" None [("Resume updated successfully!", "success")])
    /\ find_owned (update_resume updated Sample.db) 10 = Some updated
    /\ Resume.experiences updated
       = Json.column Json.of_experience
           (filter experience_required
                   (map (experience_record Bleach.clean_text (form Sample.edit_request))
                        (index_tokens is_experience_key (form Sample.edit_request))))
    /\ Resume.projects updated
       = Json.column Json.of_project
           (filter project_required
                   (map (project_record Bleach.clean_text (form Sample.edit_request))
                        (index_tokens is_project_key (form Sample.edit_request))))
    /\ Resume.certifications updated
       = Json.column Json.of_certification
           (filter certification_required
                   (map (certification_record Bleach.clean_text (form Sample.edit_request))
                        (index_tokens is_certification_key (form Sample.edit_request))))
    /\ (index_tokens is_experience_key (form Sample.edit_request) = [] ->
        Resume.experiences updated = None).
Proof.
  split; [vm_compute; discriminate|].
  apply (edit_replaces_lists_wholesale
           Bleach.clean_text Sample.db (Sample.env 0) 10 Sample.edit_request
           Sample.own_resume).
  - vm_compute. reflexivity.
  - discriminate.
  - reflexivity.
  - intros message. vm_compute. discriminate.
Defined.

(** C8 fails as stated: an edit submission with no experience group and an
    upload of a refused type is answered with a redirect back to the edit
    form; nothing is committed and the stored experiences stay. *)
Lemma edit_with_refused_upload_keeps_lists :
  let result := edit_resume Bleach.clean_text Sample.db (Sample.env 0) 10
                            Sample.edit_request_bad_upload in
  index_tokens is_experience_key (form Sample.edit_request_bad_upload) = []
  /\ result
     = (Sample.db,
        Redirect "edit_resume" (Some 10)
          [("Invalid file type. Please upload an image (PNG, JPG, JPEG, GIF, WEBP).",
            "error")])
  /\ option_map Resume.experiences (find_owned (fst result) 10)
     = Some (Resume.experiences Sample.own_resume)
  /\ Resume.experiences Sample.own_resume <> None.
Proof.
  cbv zeta. repeat split; try (vm_compute; reflexivity).
  vm_compute. discriminate.
Qed.

(* ================================================================== *)
(** ** The fallback bio (C5) *)
(* ================================================================== *)

(** C5, as the code has it: with no answer from the AI service and an empty
    bio field, generation for name "Ada", profession "Engineer" and skills
    "Python,Go" stores one of three templated first-person sentences, the one
    that [random.choice] draws; each of them contains "Engineer", "Python"
    and "Go", and only the first contains "Ada". *)
Theorem fallback_bio_is_one_of_three_templates
        (clean : string -> string) (env : Env) (db : DB) (form : Form.t)
        (template : string) (pic_url : option string) :
  Py.strip (Form.get form "bio" "") = "" ->
  Form.lookup form "name" = Some "Ada" ->
  Form.lookup form "profession" = Some "Engineer" ->
  Form.get form "skills" "" = "Python,Go" ->
  clean "Ada" = "Ada" ->
  clean "Engineer" = "Engineer" ->
  Ai.get_ai_response (api_key env) (post env) 3 = None ->
  exists view,
    generate_build clean env db form template pic_url = Some view
    /\ Resume.bio (view_resume view)
       = nth (draw env mod 3) ada_templates EmptyString
    /\ Py.contains (Resume.bio (view_resume view)) "I'm" = true
    /\ Py.contains (Resume.bio (view_resume view)) "Engineer" = true
    /\ Py.contains (Resume.bio (view_resume view)) "Python" = true
    /\ Py.contains (Resume.bio (view_resume view)) "Go" = true
    /\ (Py.contains (Resume.bio (view_resume view)) "Ada" = true
        <-> (draw env mod 3 = 0)%nat).
Proof.
  intros Hbio Hname Hprof Hskills Hada Heng Hai.
  unfold generate_build, generate_step_bio.
  rewrite decode_experiences_eq, decode_projects_eq, decode_certifications_eq.
  rewrite Hbio, Hname, Hprof, Hskills, Hai.
  assert (Hsa : sanitize clean "Ada" = "Ada") by exact Hada.
  assert (Hse : sanitize clean "Engineer" = "Engineer") by exact Heng.
  rewrite Hsa, Hse.
  change (Py.falsy (sanitize clean "")) with true. cbv iota.
  eexists. split; [reflexivity|]. cbn [view_resume Resume.bio].
  change (Ai.generate_bio None (draw env) "Ada" "Engineer"
                          (Py.join ", " (skill_list "Python,Go")))
    with (nth (draw env mod 3) ada_templates EmptyString).
  pose proof (Nat.mod_upper_bound (draw env) 3 ltac:(lia)) as Hlt.
  destruct (draw env mod 3)%nat as [|[|[|k]]].
  - repeat (split; [vm_compute; reflexivity|]). split; reflexivity.
  - repeat (split; [vm_compute; reflexivity|]).
    split; [vm_compute|]; discriminate.
  - repeat (split; [vm_compute; reflexivity|]).
    split; [vm_compute|]; discriminate.
  - lia.
Qed.

Lemma fallback_bio_is_one_of_three_templates_witness :
  exists view,
    generate_build Bleach.clean_text (Sample.env 0) Sample.db Sample.ada_form
                   "classic" None = Some view
    /\ Resume.bio (view_resume view)
       = nth (draw (Sample.env 0) mod 3) ada_templates EmptyString
    /\ Py.contains (Resume.bio (view_resume view)) "I'm" = true
    /\ Py.contains (Resume.bio (view_resume view)) "Engineer" = true
    /\ Py.contains (Resume.bio (view_resume view)) "Python" = true
    /\ Py.contains (Resume.bio (view_resume view)) "Go" = true
    /\ (Py.contains (Resume.bio (view_resume view)) "Ada" = true
        <-> (draw (Sample.env 0) mod 3 = 0)%nat).
Proof.
  apply (fallback_bio_is_one_of_three_templates
           Bleach.clean_text (Sample.env 0) Sample.db Sample.ada_form
           "classic" None); reflexivity.
Defined.

(** C5 fails as stated: the fallback is drawn by [random.choice], so two
    requests with the same fields can store different bios, and the second
    and third sentences do not contain the name. *)
Lemma fallback_bio_not_deterministic :
  let bio draw :=
    option_map (fun view => Resume.bio (view_resume view))
               (generate_build Bleach.clean_text (Sample.env draw) Sample.db
                               Sample.ada_form "classic" None) in
  bio 0%nat = Some (nth 0 ada_templates EmptyString)
  /\ bio 1%nat = Some (nth 1 ada_templates EmptyString)
  /\ bio 0%nat <> bio 1%nat
  /\ option_map (fun b => Py.contains b "Ada") (bio 1%nat) = Some false
  /\ option_map (fun b => Py.contains b "Ada") (bio 2%nat) = Some false.
Proof.
  cbv zeta. repeat split; try (vm_compute; reflexivity).
  vm_compute. discriminate.
Qed.

(* ================================================================== *)
(** ** More facts on the string primitives *)
(* ================================================================== *)

Section MoreStringFacts.

Lemma rstrip_idempotent (s : string) : Py.rstrip (Py.rstrip s) = Py.rstrip s.
Proof.
  induction s as [|c s IH]; simpl; [reflexivity|].
  destruct (Py.rstrip s) as [|d r] eqn:E.
  - destruct (Py.isspace c) eqn:Ec; simpl; [reflexivity | now rewrite Ec].
  - simpl in IH. simpl. now rewrite IH.
Qed.

Lemma lstrip_head (s : string) :
  Py.lstrip s = EmptyString
  \/ exists c t, Py.lstrip s = String c t /\ Py.isspace c = false.
Proof.
  induction s as [|c s IH]; simpl; [now left|].
  destruct (Py.isspace c) eqn:E; [exact IH|].
  right. now exists c, s.
Qed.

Lemma rstrip_keeps_head (c : ascii) (t : string) :
  Py.isspace c = false -> exists r, Py.rstrip (String c t) = String c r.
Proof.
  intros Hc. simpl. destruct (Py.rstrip t) as [|d r].
  - rewrite Hc. now eauto.
  - now eauto.
Qed.

Lemma lstrip_strip (s : string) : Py.lstrip (Py.strip s) = Py.strip s.
Proof.
  unfold Py.strip.
  destruct (lstrip_head s) as [-> | (c & t & -> & Hc)]; [reflexivity|].
  destruct (rstrip_keeps_head c t Hc) as [r ->]. simpl. now rewrite Hc.
Qed.

(** [s.strip().strip() == s.strip()]. *)
Lemma strip_idempotent (s : string) : Py.strip (Py.strip s) = Py.strip s.
Proof.
  unfold Py.strip at 1. rewrite lstrip_strip.
  unfold Py.strip. apply rstrip_idempotent.
Qed.

Lemma lstrip_contains (c : ascii) (s : string) :
  Py.contains_char c (Py.lstrip s) = true -> Py.contains_char c s = true.
Proof.
  induction s as [|a s IH]; simpl; [discriminate|].
  destruct (Py.isspace a); simpl; [|tauto].
  intros H. rewrite (IH H). apply orb_true_r.
Qed.

Lemma rstrip_contains (c : ascii) (s : string) :
  Py.contains_char c (Py.rstrip s) = true -> Py.contains_char c s = true.
Proof.
  induction s as [|a s IH]; simpl; [discriminate|].
  destruct (Py.rstrip s) as [|d r].
  - destruct (Py.isspace a); simpl; [discriminate|].
    rewrite orb_false_r. intros ->. reflexivity.
  - simpl in *. intros H. apply orb_true_iff in H as [H | H].
    + now rewrite H.
    + rewrite (IH H). apply orb_true_r.
Qed.

Lemma strip_contains (c : ascii) (s : string) :
  Py.contains_char c (Py.strip s) = true -> Py.contains_char c s = true.
Proof.
  unfold Py.strip. intros H.
  apply lstrip_contains. now apply rstrip_contains.
Qed.

(** No piece of [s.split(sep)] holds the separator. *)
Lemma split_pieces (sep : ascii) (s piece : string) :
  In piece (Py.split sep s) -> Py.contains_char sep piece = false.
Proof.
  revert piece; induction s as [|c s IH]; simpl; intros piece.
  - intros [<- | []]. reflexivity.
  - destruct (Ascii.eqb c sep) eqn:E.
    + intros [<- | H]; [reflexivity | now apply IH].
    + destruct (Py.split sep s) as [|h t] eqn:Es.
      * intros [<- | []]. simpl. now rewrite E.
      * intros [<- | H].
        -- simpl. rewrite E. apply IH. now left.
        -- apply IH. now right.
Qed.

Lemma split_no_sep (sep : ascii) (s : string) :
  Py.contains_char sep s = false -> Py.split sep s = [s].
Proof.
  induction s as [|c s IH]; simpl; [reflexivity|].
  intros H. apply orb_false_iff in H as [Hc Hs].
  rewrite Hc, (IH Hs). reflexivity.
Qed.

Lemma split_append (sep : ascii) (x rest : string) :
  Py.contains_char sep x = false ->
  Py.split sep (x ++ String sep rest) = x :: Py.split sep rest.
Proof.
  induction x as [|c x IH]; simpl; intros H.
  - now rewrite Ascii.eqb_refl.
  - apply orb_false_iff in H as [Hc Hx].
    rewrite Hc, (IH Hx). reflexivity.
Qed.

(** [sep.join(l).split(sep) == l] for a non-empty list of pieces without
    the separator. *)
Lemma split_join (sep : ascii) (x : string) (l : list string) :
  Forall (fun piece => Py.contains_char sep piece = false) (x :: l) ->
  Py.split sep (Py.join (String sep EmptyString) (x :: l)) = x :: l.
Proof.
  revert x; induction l as [|y l IH]; intros x H.
  - inversion H; subst. simpl. now apply split_no_sep.
  - inversion H as [|? ? Hx Hrest]; subst.
    change (Py.join (String sep EmptyString) (x :: y :: l))
      with (x ++ String sep (Py.join (String sep EmptyString) (y :: l))).
    rewrite (split_append sep x _ Hx). f_equal. now apply IH.
Qed.

Lemma startswith_append (sub rest : string) : Py.startswith (sub ++ rest) sub = true.
Proof.
  induction sub as [|c sub IH]; simpl; [reflexivity|].
  now rewrite Ascii.eqb_refl.
Qed.

(** [sub in a + sub + b]. *)
Lemma startswith_contained (s sub : string) :
  Py.startswith s sub = true -> Py.contains s sub = true.
Proof. intros H. destruct s; simpl; now rewrite H. Qed.

Lemma contains_append (a sub b : string) : Py.contains (a ++ sub ++ b) sub = true.
Proof.
  induction a as [|c a IH].
  - change (Py.contains (sub ++ b) sub = true).
    apply startswith_contained. apply startswith_append.
  - change (Py.contains (String c (a ++ sub ++ b)) sub = true).
    simpl. rewrite IH. apply orb_true_r.
Qed.

Lemma len_nonneg (s : string) : 0 <= Py.len s.
Proof. unfold Py.len. lia. Qed.

Lemma truthy_len (s : string) : Py.truthy s = true <-> 0 < Py.len s.
Proof.
  unfold Py.truthy, Py.falsy, Py.len. destruct s; simpl; split; intros H;
    try reflexivity; try discriminate; lia.
Qed.

Lemma length_drop (n : nat) (s : string) :
  String.length (Py.drop n s) = (String.length s - n)%nat.
Proof.
  revert s; induction n as [|n IH]; intros [|c s]; simpl; auto.
Qed.

Lemma len_slice_inner (s : string) : Py.len s - 2 <= Py.len (Py.slice_inner s).
Proof.
  unfold Py.slice_inner, Py.len.
  rewrite length_take, length_drop. lia.
Qed.

End MoreStringFacts.

(* ================================================================== *)
(** ** The AI text service: retries and fallbacks *)
(* ================================================================== *)

Lemma attempts_step (post : nat -> Ai.Outcome) (attempt remaining : nat) :
  Ai.attempts post attempt (S remaining)
  = match accepted_answer (post attempt) with
    | Some content => Some content
    | None => Ai.attempts post (S attempt) remaining
    end.
Proof.
  simpl. unfold accepted_answer.
  destruct (post attempt) as [[text|]| | | |]; try reflexivity.
  now destruct (Py.truthy (Py.strip text) && (10 <? Py.len (Py.strip text))).
Qed.

Lemma accepted_answer_long (answer : Ai.Outcome) (content : string) :
  accepted_answer answer = Some content ->
  10 < Py.len content /\ Py.strip content = content.
Proof.
  unfold accepted_answer.
  destruct answer as [[text|]| | | |]; try discriminate.
  destruct (Py.truthy (Py.strip text) && (10 <? Py.len (Py.strip text))) eqn:E;
    [|discriminate].
  intros H. injection H as <-.
  apply andb_true_iff in E as [_ E]. apply Z.ltb_lt in E.
  split; [exact E | apply strip_idempotent].
Qed.

Lemma attempts_first_accepted (post : nat -> Ai.Outcome) (remaining attempt : nat) :
  match Ai.attempts post attempt remaining with
  | Some content =>
      exists k, (attempt <= k < attempt + remaining)%nat
                /\ accepted_answer (post k) = Some content
                /\ forall j, (attempt <= j < k)%nat -> accepted_answer (post j) = None
  | None =>
      forall k, (attempt <= k < attempt + remaining)%nat ->
                accepted_answer (post k) = None
  end.
Proof.
  revert attempt; induction remaining as [|r IH]; intros attempt.
  - simpl. intros k Hk. lia.
  - rewrite attempts_step.
    destruct (accepted_answer (post attempt)) as [content|] eqn:E.
    + exists attempt. split; [lia|]. split; [exact E|]. intros j Hj. lia.
    + specialize (IH (S attempt)).
      destruct (Ai.attempts post (S attempt) r) as [content|].
      * destruct IH as (k & Hk & Hacc & Hbefore).
        exists k. split; [lia|]. split; [exact Hacc|].
        intros j Hj. destruct (Nat.eq_dec j attempt) as [-> | Hne];
          [exact E | apply Hbefore; lia].
      * intros k Hk. destruct (Nat.eq_dec k attempt) as [-> | Hne];
          [exact E | apply IH; lia].
Qed.

(** What [get_ai_response] returns is the stripped content, longer than ten
    characters, of the first acceptable answer among the first [max_retries]
    attempts, and only when an API key is set; it returns [None] when no key
    is set or none of those attempts is answered acceptably. *)
Theorem get_ai_response_first_accepted
        (api_key : option string) (post : nat -> Ai.Outcome) (max_retries : nat) :
  match Ai.get_ai_response api_key post max_retries with
  | Some content =>
      10 < Py.len content
      /\ (exists key, api_key = Some key /\ key <> "")
      /\ exists k, (k < max_retries)%nat
                   /\ accepted_answer (post k) = Some content
                   /\ forall j, (j < k)%nat -> accepted_answer (post j) = None
  | None =>
      (api_key = None \/ api_key = Some "")
      \/ forall k, (k < max_retries)%nat -> accepted_answer (post k) = None
  end.
Proof.
  unfold Ai.get_ai_response.
  destruct api_key as [key|]; [|now left; left].
  destruct (Py.falsy key) eqn:Ek.
  - apply falsy_iff in Ek. subst key. now left; right.
  - pose proof (attempts_first_accepted post max_retries 0) as H.
    destruct (Ai.attempts post 0 max_retries) as [content|].
    + destruct H as (k & Hk & Hacc & Hbefore).
      split; [now apply (accepted_answer_long (post k))|].
      split.
      * exists key. split; [reflexivity|]. intros ->. discriminate.
      * exists k. split; [lia|]. split; [exact Hacc|].
        intros j Hj. apply Hbefore. lia.
    + right. intros k Hk. apply H. lia.
Qed.

Lemma get_ai_response_long (api_key : option string) (post : nat -> Ai.Outcome)
      (max_retries : nat) (content : string) :
  Ai.get_ai_response api_key post max_retries = Some content ->
  10 < Py.len content /\ Py.strip content = content.
Proof.
  unfold Ai.get_ai_response.
  destruct api_key as [key|]; [|discriminate].
  destruct (Py.falsy key); [discriminate|].
  intros H. pose proof (attempts_first_accepted post max_retries 0) as Hspec.
  rewrite H in Hspec. destruct Hspec as (k & _ & Hacc & _).
  now apply (accepted_answer_long (post k)).
Qed.

Lemma len_unquote (q bio : string) : Py.len bio - 2 <= Py.len (Ai.unquote q bio).
Proof.
  unfold Ai.unquote.
  destruct (Py.startswith bio q && Py.endswith bio q);
    [apply len_slice_inner | lia].
Qed.

Lemma nth_In_default (l : list string) (n : nat) :
  l <> [] -> In (nth (n mod List.length l) l EmptyString) l.
Proof.
  intros Hl. apply nth_In. apply Nat.mod_upper_bound.
  destruct l; [contradiction | discriminate].
Qed.

Lemma contains_here (sub b : string) : Py.contains (sub ++ b) sub = true.
Proof. apply startswith_contained. apply startswith_append. Qed.

Lemma contains_skip (a rest sub : string) :
  Py.contains rest sub = true -> Py.contains (a ++ rest) sub = true.
Proof.
  intros H. induction a as [|c a IH]; [exact H|].
  change (Py.contains (String c (a ++ rest)) sub = true).
  simpl. rewrite IH. apply orb_true_r.
Qed.

Ltac find_in_append :=
  repeat first [ apply contains_here | apply contains_skip ].

(** The fallback bio is one of the three templates; whatever the name, the
    profession and the skills, it contains the profession and the skill
    text (the first three skills, or "various technologies" without any),
    and the first template also contains the name. *)
Theorem fallback_bio_contains_profession_and_skills
        (draw : nat) (name profession skills : string) :
  let bio := Ai.generate_fallback_bio draw name profession skills in
  In bio (Ai.templates name profession skills)
  /\ Py.contains bio profession = true
  /\ Py.contains bio (Ai.skill_text skills) = true
  /\ 0 < Py.len bio
  /\ ((draw mod 3 = 0)%nat -> Py.contains bio name = true)
  /\ (filter Py.truthy (map Py.strip (Py.split "," skills)) = [] ->
      Ai.skill_text skills = "various technologies").
Proof.
  cbv zeta. split; [apply nth_In_default; discriminate|].
  assert (Hnone : filter Py.truthy (map Py.strip (Py.split "," skills)) = [] ->
                  Ai.skill_text skills = "various technologies").
  { intros H. unfold Ai.skill_text. now rewrite H. }
  unfold Ai.generate_fallback_bio, Ai.random_choice, Ai.templates.
  cbn [List.length].
  pose proof (Nat.mod_upper_bound draw 3 ltac:(lia)) as Hlt.
  generalize dependent (Ai.skill_text skills). intros skill_text Hnone.
  destruct (draw mod 3)%nat as [|[|[|k]]]; [| | |lia]; cbn [nth];
    (split; [find_in_append|]); (split; [find_in_append|]);
    (split; [unfold Py.len; simpl; lia|]); (split; [|exact Hnone]).
  - intros _. find_in_append.
  - discriminate.
  - discriminate.
Qed.

Lemma fallback_bio_len_pos (draw : nat) (name profession skills : string) :
  0 < Py.len (Ai.generate_fallback_bio draw name profession skills).
Proof.
  unfold Ai.generate_fallback_bio, Ai.random_choice, Ai.templates.
  cbn [List.length].
  pose proof (Nat.mod_upper_bound draw 3 ltac:(lia)) as Hlt.
  destruct (draw mod 3)%nat as [|[|[|k]]]; [| | |lia]; cbn [nth];
    unfold Py.len; simpl; lia.
Qed.

(** [generate_bio] never returns an empty bio: an answer of the service
    keeps at least seven characters after the removal of surrounding
    quotes, and without an answer the bio is the fallback sentence. *)
Theorem generate_bio_never_empty
        (api_key : option string) (post : nat -> Ai.Outcome) (draw : nat)
        (name profession skills : string) :
  let response := Ai.get_ai_response api_key post 3 in
  let bio := Ai.generate_bio response draw name profession skills in
  0 < Py.len bio
  /\ match response with
     | Some content => Py.len content - 4 <= Py.len bio /\ 7 <= Py.len bio
     | None => bio = Ai.generate_fallback_bio draw name profession skills
     end.
Proof.
  cbv zeta.
  destruct (Ai.get_ai_response api_key post 3) as [content|] eqn:E.
  - destruct (get_ai_response_long _ _ _ _ E) as [Hlen Hstrip].
    unfold Ai.generate_bio.
    assert (Ht : Py.truthy content = true) by (apply truthy_len; lia).
    rewrite Ht, Hstrip.
    pose proof (len_unquote (String "034" EmptyString) content) as H1.
    pose proof (len_unquote "'" (Ai.unquote (String "034" EmptyString) content)) as H2.
    lia.
  - simpl. split; [apply fallback_bio_len_pos | reflexivity].
Qed.

(** [generate_job_description] returns a description shorter than twenty
    characters as it is, whatever the service answers; a description of
    twenty characters or more is replaced by the service's answer, which
    has more than ten characters, whenever [get_ai_response] gives one, and
    is returned as it is when it gives none; so a non-empty description
    never becomes empty. *)
Theorem generate_job_description_keeps_or_enhances
        (api_key : option string) (post : nat -> Ai.Outcome)
        (job_title company basic_desc : string) :
  let result := generate_job_description api_key post job_title company basic_desc in
  (Py.len basic_desc < 20 -> result = basic_desc)
  /\ (Ai.get_ai_response api_key post 3 = None -> result = basic_desc)
  /\ (20 <= Py.len basic_desc ->
      match Ai.get_ai_response api_key post 3 with
      | Some answer => result = answer /\ 10 < Py.len answer
      | None => result = basic_desc
      end)
  /\ (basic_desc <> "" -> result <> "").
Proof.
  cbv zeta. unfold generate_job_description.
  destruct (Py.falsy basic_desc || (Py.len basic_desc <? 20)) eqn:E.
  - split; [auto|]. split; [auto|]. split; [|auto].
    intros Hlen. exfalso. apply orb_true_iff in E as [E | E].
    + destruct basic_desc; [|discriminate E].
      unfold Py.len in Hlen. simpl in Hlen. lia.
    + apply Z.ltb_lt in E. lia.
  - apply orb_false_iff in E as [_ E]. apply Z.ltb_ge in E.
    destruct (Ai.get_ai_response api_key post 3) as [enhanced|] eqn:Eai.
    + destruct (get_ai_response_long _ _ _ _ Eai) as [Hlen _].
      assert (Ht : Py.truthy enhanced = true) by (apply truthy_len; lia).
      rewrite Ht. split; [intros H; lia|]. split; [discriminate|].
      split; [intros _; now split|].
      intros _ ->. unfold Py.len in Hlen. simpl in Hlen. lia.
    + repeat split; auto.
Qed.

(* ================================================================== *)
(** ** Skills: what is stored and what is shown *)
(* ================================================================== *)

Lemma skill_list_elements (text x : string) :
  In x (skill_list text) ->
  Py.truthy x = true /\ Py.strip x = x /\ Py.contains_char "," x = false.
Proof.
  unfold skill_list. intros H. apply filter_In in H as [H Ht].
  apply in_map_iff in H as (y & <- & Hy).
  split; [exact Ht|]. split; [apply strip_idempotent|].
  destruct (Py.contains_char "," (Py.strip y)) eqn:E; [|reflexivity].
  apply strip_contains in E. now rewrite (split_pieces _ _ _ Hy) in E.
Qed.

Lemma filter_strip_fixed (l : list string) :
  Forall (fun x => Py.truthy x = true /\ Py.strip x = x) l ->
  filter Py.truthy (map Py.strip l) = l.
Proof.
  induction 1 as [|x l [Ht Hs] _ IH]; simpl; [reflexivity|].
  now rewrite Hs, Ht, IH.
Qed.

Lemma skill_list_join (l : list string) :
  Forall (fun x => Py.truthy x = true /\ Py.strip x = x
                   /\ Py.contains_char "," x = false) l ->
  skill_list (Py.join "," l) = l.
Proof.
  intros H. destruct l as [|x l]; [reflexivity|].
  unfold skill_list. rewrite (split_join "," x l).
  - apply filter_strip_fixed. eapply Forall_impl; [|exact H].
    intros a (Ht & Hs & _). now split.
  - eapply Forall_impl; [|exact H]. now intros a (_ & _ & Hc).
Qed.

(** The skills that [view_resume] shows for a generated resume are the list
    that [generate] rendered: joining the stripped, non-empty skills with
    commas and splitting the stored text again gives the same list.  After
    an edit, which stores the submitted text as it is, the skills shown are
    the stripped, non-empty pieces of that text. *)
Theorem stored_skills_round_trip
        (clean : string -> string) (env : Env) (db : DB) (form : Form.t)
        (template : string) (pic_url : option string) (original : Resume.t) :
  skill_list (Py.join "," (skill_list (Form.get form "skills" "")))
  = skill_list (Form.get form "skills" "")
  /\ match generate_build clean env db form template pic_url with
     | Some view =>
         view_skills view = skill_list (Form.get form "skills" "")
         /\ view_resume_skills (view_resume view) = view_skills view
     | None =>
         Form.lookup form "name" = None \/ Form.lookup form "profession" = None
     end
  /\ exists updated,
       edit_apply clean original form pic_url = Some updated
       /\ view_resume_skills updated = skill_list (Form.get form "skills" "").
Proof.
  assert (Hround : skill_list (Py.join "," (skill_list (Form.get form "skills" "")))
                   = skill_list (Form.get form "skills" "")).
  { apply skill_list_join. apply Forall_forall. intros x Hx.
    now apply (skill_list_elements (Form.get form "skills" "")). }
  split; [exact Hround|]. split.
  - unfold generate_build, generate_step_bio.
    rewrite decode_experiences_eq, decode_projects_eq, decode_certifications_eq.
    destruct (Form.lookup form "name") as [name|];
      destruct (Form.lookup form "profession") as [profession|];
      destruct (Py.falsy _); simpl; auto.
  - unfold edit_apply.
    rewrite decode_experiences_eq, decode_projects_eq, decode_certifications_eq.
    eexists. split; reflexivity.
Qed.

(* ================================================================== *)
(** ** The decoders on any submission *)
(* ================================================================== *)

Lemma length_tokens_of (is_anchor : string -> bool) (ks : list string) :
  (List.length (tokens_of is_anchor ks) <= List.length (filter is_anchor ks))%nat.
Proof.
  unfold tokens_of. induction (filter is_anchor ks) as [|key rest IH]; simpl;
    [lia|].
  rewrite length_app. destruct (index_token key); simpl; lia.
Qed.

Lemma length_filter_le {A} (f : A -> bool) (l : list A) :
  (List.length (filter f l) <= List.length l)%nat.
Proof. induction l as [|a l IH]; simpl; [lia|]. destruct (f a); simpl; lia. Qed.

Lemma length_keys (form : Form.t) :
  (List.length (Form.keys form) <= List.length form)%nat.
Proof.
  induction form as [|[k v] rest IH]; simpl; [lia|].
  pose proof (length_filter_le (fun k' => negb (k' =? k)%string) (Form.keys rest)).
  lia.
Qed.

Lemma sanitize_truthy (clean : string -> string) (text : string) :
  Py.truthy (sanitize clean text) = true -> text <> "".
Proof. intros H ->. discriminate. Qed.

(** On any submission, well formed or not, the three loops return without
    raising; each emits at most one record per key that passes its anchor
    test, so no more records than submitted fields; and every record emitted
    comes from an index token under which a required field was submitted
    with more than whitespace. *)
Theorem decoders_total_and_bounded (clean : string -> string) (form : Form.t) :
  exists experiences projects certifications,
    decode_experiences clean form = Some experiences
    /\ decode_projects clean form = Some projects
    /\ decode_certifications clean form = Some certifications
    /\ (List.length experiences
        <= List.length (filter is_experience_key (Form.keys form)) <= List.length form)%nat
    /\ (List.length projects
        <= List.length (filter is_project_key (Form.keys form)) <= List.length form)%nat
    /\ (List.length certifications
        <= List.length (filter is_certification_key (Form.keys form))
        <= List.length form)%nat
    /\ Forall (fun e =>
         exists idx,
           In idx (index_tokens is_experience_key form)
           /\ e = experience_record clean form idx
           /\ (Py.strip (Form.get form (field_key "experiences" idx "job_title") "") <> ""
               \/ Py.strip (Form.get form (field_key "experiences" idx "company") "") <> ""))
         experiences
    /\ Forall (fun p =>
         exists idx,
           In idx (index_tokens is_project_key form)
           /\ p = project_record clean form idx
           /\ Py.strip (Form.get form (field_key "projects" idx "name") "") <> "")
         projects
    /\ Forall (fun c =>
         exists idx,
           In idx (index_tokens is_certification_key form)
           /\ c = certification_record clean form idx
           /\ Py.strip (Form.get form (field_key "certifications" idx "name") "") <> "")
         certifications.
Proof.
  do 3 eexists.
  split; [apply decode_experiences_eq|].
  split; [apply decode_projects_eq|].
  split; [apply decode_certifications_eq|].
  assert (Hbound : forall {R} (required : R -> bool) (record : string -> R) is_anchor,
             (List.length (filter required (map record (index_tokens is_anchor form)))
              <= List.length (filter is_anchor (Form.keys form)) <= List.length form)%nat).
  { intros R required record is_anchor.
    pose proof (length_filter_le required (map record (index_tokens is_anchor form))).
    rewrite length_map in H.
    pose proof (length_tokens_of is_anchor (Form.keys form)).
    pose proof (length_filter_le is_anchor (Form.keys form)).
    pose proof (length_keys form).
    unfold index_tokens in *. lia. }
  split; [apply Hbound|]. split; [apply Hbound|]. split; [apply Hbound|].
  split; [|split]; apply Forall_forall; intros r Hr;
    apply filter_In in Hr as [Hr Hreq];
    apply in_map_iff in Hr as (idx & <- & Hidx);
    exists idx; (split; [exact Hidx|]); (split; [reflexivity|]).
  - unfold experience_required in Hreq. simpl in Hreq.
    apply orb_true_iff in Hreq as [H | H]; [left | right];
      now apply (sanitize_truthy clean).
  - now apply (sanitize_truthy clean).
  - now apply (sanitize_truthy clean).
Qed.

Lemma contains_char_append (c : ascii) (a b : string) :
  Py.contains_char c (a ++ b) = Py.contains_char c a || Py.contains_char c b.
Proof.
  induction a as [|x a IH]; simpl; [reflexivity|].
  rewrite IH. apply orb_assoc.
Qed.

(** Reading the index token back from a key built as [prefix[INDEX][field]]
    gives [INDEX], provided neither the prefix nor the token holds an opening
    bracket and the token holds no closing one; such a key is well formed for
    its group. *)
Theorem index_token_of_field_key (prefix idx field : string) :
  Py.contains_char "[" prefix = false ->
  Py.contains_char "[" idx = false ->
  Py.contains_char "]" idx = false ->
  index_token (field_key prefix idx field) = Some idx
  /\ forall is_anchor,
       well_formed_key is_anchor prefix field (field_key prefix idx field) = true.
Proof.
  intros Hp Hi Hc.
  assert (Htok : index_token (field_key prefix idx field) = Some idx).
  { unfold index_token, field_key.
    change (prefix ++ "[" ++ idx ++ "][" ++ field ++ "]")
      with (prefix ++ String "[" (idx ++ "][" ++ field ++ "]")).
    rewrite (split_append "[" prefix _ Hp).
    replace (idx ++ "][" ++ field ++ "]")
      with ((idx ++ "]") ++ String "[" (field ++ "]"))
      by (rewrite append_assoc; reflexivity).
    rewrite (split_append "[" (idx ++ "]")).
    - cbn [Py.item nth_error].
      change (idx ++ "]") with (idx ++ String "]" EmptyString).
      rewrite (split_append "]" idx _ Hc). reflexivity.
    - rewrite contains_char_append, Hi. reflexivity. }
  split; [exact Htok|].
  intros is_anchor. unfold well_formed_key. rewrite Htok.
  destruct (is_anchor _); [apply String.eqb_refl | reflexivity].
Qed.

Lemma index_token_of_field_key_witness :
  index_token (field_key "experiences" "x7" "job_title") = Some "x7"
  /\ forall is_anchor,
       well_formed_key is_anchor "experiences" "job_title"
                       (field_key "experiences" "x7" "job_title") = true.
Proof.
  apply (index_token_of_field_key "experiences" "x7" "job_title"); reflexivity.
Defined.

(* ================================================================== *)
(** ** The resume table: keys, insertion, lookup and deletion *)
(* ================================================================== *)

Section TableFacts.

Lemma max_id_bound (rs : list Resume.t) (r : Resume.t) :
  In r rs -> Resume.id r <= fold_right Z.max 0 (map Resume.id rs).
Proof.
  induction rs as [|r0 rs IH]; simpl; [contradiction|].
  intros [-> | H]; [lia|]. specialize (IH H). lia.
Qed.

(** The key given to a new row is above every key in the table. *)
Lemma next_resume_id_fresh (db : DB) (r : Resume.t) :
  In r (resumes db) -> Resume.id r < next_resume_id db.
Proof.
  intros H. unfold next_resume_id.
  pose proof (max_id_bound _ _ H). lia.
Qed.

Lemma find_app {A} (f : A -> bool) (l l' : list A) :
  find f (l ++ l') = match find f l with
                     | Some x => Some x
                     | None => find f l'
                     end.
Proof.
  induction l as [|a l IH]; simpl; [reflexivity|].
  now destruct (f a).
Qed.

Lemma find_none_fresh (db : DB) (f : Resume.t -> bool) :
  (forall r, f r = true -> Resume.id r = next_resume_id db) ->
  find f (resumes db) = None.
Proof.
  intros Hf. destruct (find f (resumes db)) as [r|] eqn:E; [|reflexivity].
  apply find_some in E as [Hin Hr].
  pose proof (next_resume_id_fresh db r Hin). specialize (Hf r Hr). lia.
Qed.

(** With pairwise distinct keys, two rows of the table with the same key
    are one row. *)
Lemma same_id_same_row (db : DB) (a b : Resume.t) :
  unique_ids db ->
  In a (resumes db) -> In b (resumes db) -> Resume.id a = Resume.id b -> a = b.
Proof.
  unfold unique_ids. induction (resumes db) as [|r rs IH]; simpl; [contradiction|].
  intros Hnd Ha Hb Hab. apply NoDup_cons_iff in Hnd as [Hfresh Hnd].
  destruct Ha as [-> | Ha], Hb as [-> | Hb]; auto; exfalso; apply Hfresh.
  - rewrite Hab. now apply in_map.
  - rewrite <- Hab. now apply in_map.
Qed.

(** Deleting rows keeps the keys pairwise distinct. *)
Lemma delete_row_unique (resume_id : Z) (db : DB) :
  unique_ids db -> unique_ids (delete_row resume_id db).
Proof.
  unfold unique_ids, delete_row. simpl.
  induction (resumes db) as [|r rs IH]; simpl; intros Hnd; [constructor|].
  apply NoDup_cons_iff in Hnd as [Hfresh Hnd].
  destruct (Resume.id r =? resume_id); simpl; [now apply IH|].
  apply NoDup_cons_iff. split; [|now apply IH].
  intros Hin. apply Hfresh.
  apply in_map_iff in Hin as (r0 & <- & Hr0).
  apply filter_In in Hr0 as [Hr0 _]. now apply in_map.
Qed.

Lemma update_resume_ids (updated : Resume.t) (db : DB) :
  map Resume.id (resumes (update_resume updated db)) = map Resume.id (resumes db).
Proof.
  unfold update_resume. simpl.
  induction (resumes db) as [|r rs IH]; simpl; [reflexivity|].
  rewrite IH. destruct (Resume.id r =? Resume.id updated) eqn:E; [|reflexivity].
  apply Z.eqb_eq in E. now rewrite E.
Qed.

Lemma add_resume_unique (r : Resume.t) (db : DB) :
  unique_ids db -> Resume.id r = next_resume_id db -> unique_ids (add_resume r db).
Proof.
  unfold unique_ids, add_resume. simpl. intros Hnd Hid.
  rewrite map_app. simpl.
  apply NoDup_app.
  - exact Hnd.
  - repeat constructor. now intros [].
  - intros i Hi [<- | []].
    apply in_map_iff in Hi as (r0 & Hr0 & Hin).
    pose proof (next_resume_id_fresh db r0 Hin). lia.
Qed.

End TableFacts.

(* ================================================================== *)
(** ** [generate]: what is committed *)
(* ================================================================== *)

Lemma generate_build_row (clean : string -> string) (env : Env) (db : DB)
      (form : Form.t) (template : string) (pic_url : option string)
      (view : ResumeView) :
  generate_build clean env db form template pic_url = Some view ->
  Resume.id (view_resume view) = next_resume_id db
  /\ Resume.user_id (view_resume view) = User.id (current_user db)
  /\ Resume.template (view_resume view) = template
  /\ Resume.profile_pic_url (view_resume view) = pic_url
  /\ exists name profession,
       Form.lookup form "name" = Some name
       /\ Form.lookup form "profession" = Some profession
       /\ Resume.name (view_resume view) = sanitize clean name
       /\ Resume.profession (view_resume view) = sanitize clean profession.
Proof.
  unfold generate_build, generate_step_bio.
  rewrite decode_experiences_eq, decode_projects_eq, decode_certifications_eq.
  destruct (Form.lookup form "name") as [name|];
    destruct (Form.lookup form "profession") as [profession|];
    destruct (Py.falsy _); try discriminate;
    intros H; injection H as <-; simpl;
    (split; [reflexivity|]); (split; [reflexivity|]);
    (split; [reflexivity|]); (split; [reflexivity|]);
    exists name, profession; repeat split.
Qed.

Lemma generate_build_some (clean : string -> string) (env : Env) (db : DB)
      (form : Form.t) (template : string) (pic_url : option string)
      (name profession : string) :
  Form.lookup form "name" = Some name ->
  Form.lookup form "profession" = Some profession ->
  exists view, generate_build clean env db form template pic_url = Some view.
Proof.
  intros Hn Hp. unfold generate_build, generate_step_bio.
  rewrite decode_experiences_eq, decode_projects_eq, decode_certifications_eq.
  rewrite Hn, Hp. destruct (Py.falsy _); eexists; reflexivity.
Qed.

Lemma generate_build_none (clean : string -> string) (env : Env) (db : DB)
      (form : Form.t) (template : string) (pic_url : option string) :
  Form.lookup form "name" = None \/ Form.lookup form "profession" = None ->
  generate_build clean env db form template pic_url = None.
Proof.
  intros H. unfold generate_build, generate_step_bio.
  rewrite decode_experiences_eq, decode_projects_eq, decode_certifications_eq.
  destruct H as [H | H]; rewrite H;
    [ destruct (Form.lookup form "profession")
    | destruct (Form.lookup form "name") ];
    destruct (Py.falsy _); reflexivity.
Qed.

(** The ways [generate] ends: with the database committed by the refresh
    and a redirect, or with one row inserted and [deduct_token] applied,
    whatever [render_template] does afterwards. *)
Lemma generate_cases
      (clean : string -> string) (M : UserMethods) (FREE_TEMPLATES : list string)
      (db : DB) (env : Env) (req : Request) :
  let user := reset_tokens_if_needed M (now env) (current_user db) in
  let db1 := with_user user db in
  let template := Form.get (form req) "template" "classic" in
  (exists endpoint flashed,
      generate clean M FREE_TEMPLATES db env req
      = (db1, Redirect endpoint None flashed))
  \/ (exists view pic_url,
        generate_build clean env db1 (form req) template pic_url = Some view
        /\ generate clean M FREE_TEMPLATES db env req
           = (with_user (User.set_last_generated (now env) (deduct_token M user))
                        (insert_resume (now env) (view_resume view) db1),
              if renders env ("resume_" ++ template ++ ".html") then
                RenderResume ("resume_" ++ template ++ ".html") view
                             [("Resume generated successfully!", "success")]
              else
                Redirect "start" None
                         [("Resume generated successfully!", "success");
                          ("Failed to generate resume. Please try again.", "error")])
        /\ has_tokens M user = true
        /\ (existsb (String.eqb template) FREE_TEMPLATES = true
            \/ is_pro_user M user = true \/ is_ultimate_user M user = true)).
Proof.
  cbv zeta. unfold generate.
  set (user := reset_tokens_if_needed M (now env) (current_user db)).
  set (template := Form.get (form req) "template" "classic").
  destruct (existsb (String.eqb template) FREE_TEMPLATES) eqn:Efree;
    destruct (is_pro_user M user) eqn:Epro;
    destruct (is_ultimate_user M user) eqn:Eult;
    destruct (has_tokens M user) eqn:Etok; simpl;
    try (left; do 2 eexists; reflexivity);
    (destruct (check_pic env (profile_pic req)) as [|message|url|];
     [ | left; do 2 eexists; reflexivity | | left; do 2 eexists; reflexivity ];
     match goal with
     | |- context [generate_build clean env ?d ?f ?t ?p] =>
         destruct (generate_build clean env d f t p) as [view|] eqn:Ebuild;
         [ right; exists view, p; destruct (renders env _);
           repeat split; auto
         | left; do 2 eexists; reflexivity ]
     end).
Qed.

(** [generate] inserts a resume and deducts a token together or not at
    all: either nothing but the refresh of step 1 is committed and the
    answer is a redirect, or exactly one row is appended, with a fresh key,
    owned by the requester and created now, [deduct_token] is applied once
    to the refreshed user and the generation time is stamped; the latter
    only when the refreshed user has tokens and the template is free or the
    plan is pro or ultimate.  The commit comes before [render_template]:
    the page of the resume is the answer when the template renders, and
    when it does not the row and the deduction stay committed and the
    answer is the redirect to the start page with "Failed to generate
    resume" flashed after the message of success. *)
Theorem generate_all_or_nothing
        (clean : string -> string) (M : UserMethods) (FREE_TEMPLATES : list string)
        (db : DB) (env : Env) (req : Request) :
  let user := reset_tokens_if_needed M (now env) (current_user db) in
  let template := Form.get (form req) "template" "classic" in
  let result := generate clean M FREE_TEMPLATES db env req in
  (fst result = with_user user db
   /\ exists endpoint flashed, snd result = Redirect endpoint None flashed)
  \/ (exists row view,
        row = Resume.created (now env) (view_resume view)
        /\ current_user (fst result)
           = User.set_last_generated (now env) (deduct_token M user)
        /\ resumes (fst result) = (resumes db ++ [row])%list
        /\ purchases (fst result) = purchases db
        /\ snd result
           = (if renders env ("resume_" ++ template ++ ".html") then
                RenderResume ("resume_" ++ template ++ ".html") view
                             [("Resume generated successfully!", "success")]
              else
                Redirect "start" None
                         [("Resume generated successfully!", "success");
                          ("Failed to generate resume. Please try again.", "error")])
        /\ Resume.id row = next_resume_id db
        /\ Resume.user_id row = User.id user
        /\ Resume.template row = template
        /\ has_tokens M user = true
        /\ (existsb (String.eqb template) FREE_TEMPLATES = true
            \/ is_pro_user M user = true \/ is_ultimate_user M user = true)).
Proof.
  cbv zeta.
  destruct (generate_cases clean M FREE_TEMPLATES db env req)
    as [(endpoint & flashed & ->) | (view & pic_url & Hbuild & -> & Htok & Hgate)].
  - left. simpl. split; [reflexivity | now eauto].
  - right. apply generate_build_row in Hbuild as (Hid & Huid & Htpl & _).
    exists (Resume.created (now env) (view_resume view)), view.
    simpl. now repeat split.
Qed.

(** When the template does not render, the served request of the samples
    leaves the new row and the deduction committed and is answered with the
    redirect of a failure. *)
Example generate_commits_before_rendering :
  let result := generate Bleach.clean_text (SpecModels.methods 3)
                         Sample.free_templates Sample.db
                         MoreSamples.env_without_templates
                         MoreSamples.served_request in
  map Resume.id (resumes (fst result)) = [10; 11; 12]
  /\ User.tokens (current_user (fst result)) = 2
  /\ snd result
     = Redirect "start" None
                [("Resume generated successfully!", "success");
                 ("Failed to generate resume. Please try again.", "error")].
Proof. repeat split; vm_compute; reflexivity. Qed.

(** A request that passes the gate and the upload check is served exactly
    when name and profession were submitted: then the new row holds the
    sanitized name and profession and is found again under its key;
    without one of them the handler answers "Failed to generate resume" and
    commits nothing but the refresh, so no token is deducted. *)
Theorem generate_served_iff_name_and_profession
        (clean : string -> string) (M : UserMethods) (FREE_TEMPLATES : list string)
        (db : DB) (env : Env) (req : Request) :
  let user := reset_tokens_if_needed M (now env) (current_user db) in
  let template := Form.get (form req) "template" "classic" in
  let result := generate clean M FREE_TEMPLATES db env req in
  has_tokens M user = true ->
  (existsb (String.eqb template) FREE_TEMPLATES = true
   \/ is_pro_user M user = true \/ is_ultimate_user M user = true) ->
  (forall message, check_pic env (profile_pic req) <> PicRefused message) ->
  (forall name profession,
      Form.lookup (form req) "name" = Some name ->
      Form.lookup (form req) "profession" = Some profession ->
      exists row,
        resumes (fst result) = (resumes db ++ [row])%list
        /\ get_resume (fst result) (next_resume_id db) = Some row
        /\ Resume.name row = sanitize clean name
        /\ Resume.profession row = sanitize clean profession
        /\ Resume.user_id row = User.id user
        /\ current_user (fst result)
           = User.set_last_generated (now env) (deduct_token M user))
  /\ (Form.lookup (form req) "name" = None
      \/ Form.lookup (form req) "profession" = None ->
      result = (with_user user db, generation_failed)).
Proof.
  cbv zeta. intros Htok Hgate Hpic.
  set (user := reset_tokens_if_needed M (now env) (current_user db)) in *.
  set (template := Form.get (form req) "template" "classic") in *.
  assert (Hgate' : negb (existsb (String.eqb template) FREE_TEMPLATES)
                   && negb (is_pro_user M user || is_ultimate_user M user) = false).
  { destruct (existsb (String.eqb template) FREE_TEMPLATES),
             (is_pro_user M user), (is_ultimate_user M user);
      simpl; try reflexivity; destruct Hgate as [H | [H | H]]; discriminate. }
  pose proof (check_pic_never_raises env (profile_pic req)) as Hraise.
  split.
  - intros name profession Hn Hp.
    unfold generate. fold user. fold template. rewrite Hgate', Htok. simpl.
    destruct (check_pic env (profile_pic req)) as [|message|url|] eqn:Ec;
      try (now elim (Hpic message)); try (now elim Hraise);
      match goal with
      | |- context [generate_build clean env ?d ?f ?t ?p] =>
          destruct (generate_build_some clean env d f t p name profession Hn Hp)
            as [view Hbuild];
          rewrite Hbuild;
          apply generate_build_row in Hbuild
            as (Hid & Huid & _ & _ & n' & p' & Hn' & Hp' & Hname & Hprof)
      end;
      rewrite Hn in Hn'; rewrite Hp in Hp';
      injection Hn' as <-; injection Hp' as <-;
      exists (Resume.created (now env) (view_resume view));
      destruct (renders env _); simpl;
      (split; [reflexivity|]); (split; [|now repeat split]);
      unfold get_resume; simpl; rewrite find_app;
      rewrite (find_none_fresh db); simpl;
      try (intros r Hr; now apply Z.eqb_eq in Hr);
      change (next_resume_id (with_user user db)) with (next_resume_id db) in Hid;
      rewrite Hid, Z.eqb_refl; reflexivity.
  - intros Hmissing.
    unfold generate. fold user. fold template. rewrite Hgate', Htok. simpl.
    destruct (check_pic env (profile_pic req)) as [|message|url|] eqn:Ec;
      try (now elim (Hpic message)); try (now elim Hraise);
      now rewrite generate_build_none.
Qed.

Lemma generate_served_iff_name_and_profession_witness :
  let M := SpecModels.methods 3 in
  let result := generate Bleach.clean_text M Sample.free_templates Sample.db
                         (Sample.env 0) MoreSamples.served_request in
  (forall name profession,
      Form.lookup Sample.ada_form "name" = Some name ->
      Form.lookup Sample.ada_form "profession" = Some profession ->
      exists row,
        resumes (fst result) = (resumes Sample.db ++ [row])%list
        /\ get_resume (fst result) (next_resume_id Sample.db) = Some row
        /\ Resume.name row = sanitize Bleach.clean_text name
        /\ Resume.profession row = sanitize Bleach.clean_text profession
        /\ Resume.user_id row
           = User.id (SpecModels.reset_tokens_if_needed 3 86400 Sample.free_user)
        /\ current_user (fst result)
           = User.set_last_generated 86400
               (SpecModels.deduct_token
                  (SpecModels.reset_tokens_if_needed 3 86400 Sample.free_user)))
  /\ (Form.lookup Sample.ada_form "name" = None
      \/ Form.lookup Sample.ada_form "profession" = None ->
      result = (with_user (SpecModels.reset_tokens_if_needed 3 86400 Sample.free_user)
                          Sample.db,
                generation_failed)).
Proof.
  apply (generate_served_iff_name_and_profession
           Bleach.clean_text (SpecModels.methods 3) Sample.free_templates
           Sample.db (Sample.env 0) MoreSamples.served_request).
  - reflexivity.
  - left. reflexivity.
  - intros message. discriminate.
Defined.

(* ================================================================== *)
(** ** The upload check *)
(* ================================================================== *)

(** The upload check never raises.  It stores a file only if the name has a
    dot, the lower-cased text after the last dot is an allowed extension and
    the size is at most 5MB, under a URL in [/static/uploads/]; it refuses a
    named file exactly when the extension is not allowed or the size is
    over 5MB; an upload without a file name is taken as no upload. *)
Theorem check_pic_outcomes (env : Env) (pic : Upload) :
  match check_pic env (Some pic) with
  | PicStored url =>
      Py.contains_char "." (filename pic) = true
      /\ (exists ext, file_ext (filename pic) = Some ext /\ In ext allowed_extensions)
      /\ size pic <= 5242880
      /\ url = "/static/uploads/" ++ upload_name env (filename pic)
  | PicRefused message =>
      filename pic <> ""
      /\ ((exists ext, file_ext (filename pic) = Some ext /\ ~ In ext allowed_extensions)
          \/ 5242880 < size pic)
  | NoPic => filename pic = ""
  | PicRaised => False
  end.
Proof.
  unfold check_pic.
  destruct (Py.truthy (filename pic)) eqn:Et.
  - assert (Hname : filename pic <> "") by (intros H; now rewrite H in Et).
    destruct (file_ext_defined (filename pic)) as [ext Hext]. rewrite Hext.
    destruct (existsb (String.eqb ext) allowed_extensions) eqn:Ea; simpl.
    + apply existsb_exists in Ea as (x & Hx & Heq).
      apply String.eqb_eq in Heq. subst x.
      destruct (5242880 <? size pic) eqn:Es.
      * apply Z.ltb_lt in Es. split; [exact Hname | now right].
      * apply Z.ltb_ge in Es. repeat split; eauto.
        unfold file_ext in Hext.
        destruct (Py.contains_char "." (filename pic)); [reflexivity|].
        injection Hext as <-. simpl in Hx. intuition discriminate.
    + split; [exact Hname|]. left. exists ext. split; [reflexivity|].
      intros Hin.
      assert (existsb (String.eqb ext) allowed_extensions = true)
        by (apply existsb_exists; exists ext; split;
            [exact Hin | apply String.eqb_refl]).
      congruence.
  - unfold Py.truthy in Et. apply negb_false_iff in Et. now apply falsy_iff.
Qed.

(* ================================================================== *)
(** ** Deleting and duplicating a resume *)
(* ================================================================== *)

(** [delete_resume] answers 404 for an unknown key and changes nothing;
    for a row of the requester it removes every row with that key and no
    other row, leaves the user and the purchases as they are, and the key
    is no longer found; for a row of another user it changes nothing. *)
Theorem delete_resume_outcomes (db : DB) (resume_id : Z) :
  let result := delete_resume db resume_id in
  match get_resume db resume_id with
  | None => result = (db, NotFound)
  | Some resume =>
      if Resume.user_id resume =? User.id (current_user db) then
        snd result
        = Redirect "my_resumes" None [("Resume deleted successfully!", "success")]
        /\ get_resume (fst result) resume_id = None
        /\ (forall r, In r (resumes (fst result))
                      <-> In r (resumes db) /\ Resume.id r <> resume_id)
        /\ current_user (fst result) = current_user db
        /\ purchases (fst result) = purchases db
      else
        result = (db, Redirect "start" None [("Unauthorized", "error")])
  end.
Proof.
  cbv zeta. unfold delete_resume.
  destruct (get_resume db resume_id) as [resume|]; [|reflexivity].
  destruct (Resume.user_id resume =? User.id (current_user db)); simpl;
    [|reflexivity].
  split; [reflexivity|]. split; [|split; [|now split]].
  - unfold get_resume, delete_row. simpl.
    destruct (find _ (filter _ (resumes db))) as [r|] eqn:E; [|reflexivity].
    apply find_some in E as [Hin Hid]. apply filter_In in Hin as [_ Hne].
    now rewrite Hid in Hne.
  - intros r. rewrite filter_In, negb_true_iff, Z.eqb_neq. tauto.
Qed.

(** A request with [duplicate=1] on a resume of the requester, whatever its
    method, appends a copy that takes every column the constructor passes
    from the original and differs from it in two columns: the key, which is
    fresh, and the creation time, which is the time of the request and not
    the original's.  Afterwards both the original and the copy are found
    under their keys, and the answer redirects to the edit form of the
    copy. *)
Theorem duplicate_appends_copy
        (clean : string -> string) (db : DB) (env : Env) (resume_id : Z)
        (req : Request) (original : Resume.t) :
  find_owned db resume_id = Some original ->
  duplicate req = Some "1" ->
  let copy := resume_copy (next_resume_id db) (now env) original in
  let result := edit_resume clean db env resume_id req in
  resumes (fst result) = (resumes db ++ [copy])%list
  /\ Resume.timestamp copy = Some (now env)
  /\ current_user (fst result) = current_user db
  /\ purchases (fst result) = purchases db
  /\ find_owned (fst result) resume_id = Some original
  /\ find_owned (fst result) (next_resume_id db) = Some copy
  /\ next_resume_id db <> resume_id
  /\ snd result
     = Redirect "edit_resume" (Some (next_resume_id db))
                [("Resume duplicated. You can now edit it.", "info")].
Proof.
  intros Hfind Hdup. cbv zeta.
  pose proof (find_owned_some _ _ _ Hfind) as (Hin & Hid & Hown).
  unfold edit_resume. rewrite Hfind, Hdup. simpl.
  unfold insert_resume, Resume.created. simpl.
  assert (Hcopy : Resume.mk (next_resume_id db) (User.id (current_user db))
                    (Resume.name original) (Resume.profession original)
                    (Resume.email original) (Resume.phone original)
                    (Resume.linkedin original) (Resume.github original)
                    (Resume.bio original) (Resume.skills original)
                    (Resume.experiences original) (Resume.degree original)
                    (Resume.institute original) (Resume.grad_year original)
                    (Resume.profile_pic_url original) (Resume.template original)
                    (Resume.projects original) (Resume.certifications original)
                    (Some (now env))
                  = resume_copy (next_resume_id db) (now env) original).
  { unfold resume_copy. now rewrite Hown. }
  rewrite Hcopy.
  pose proof (next_resume_id_fresh db original Hin) as Hfresh.
  repeat split.
  - unfold find_owned in *. simpl. rewrite find_app, Hfind. reflexivity.
  - unfold find_owned. simpl. rewrite find_app.
    rewrite (find_none_fresh db).
    + simpl. rewrite Hown, !Z.eqb_refl. reflexivity.
    + intros r Hr. apply andb_true_iff in Hr as [Hr _]. now apply Z.eqb_eq in Hr.
  - lia.
Qed.

Lemma duplicate_appends_copy_witness :
  let copy := resume_copy (next_resume_id Sample.db) 86400 Sample.own_resume in
  let result := edit_resume Bleach.clean_text Sample.db (Sample.env 0) 10
                            MoreSamples.duplicate_request in
  resumes (fst result) = (resumes Sample.db ++ [copy])%list
  /\ Resume.timestamp copy = Some 86400
  /\ current_user (fst result) = current_user Sample.db
  /\ purchases (fst result) = purchases Sample.db
  /\ find_owned (fst result) 10 = Some Sample.own_resume
  /\ find_owned (fst result) (next_resume_id Sample.db) = Some copy
  /\ next_resume_id Sample.db <> 10
  /\ snd result
     = Redirect "edit_resume" (Some (next_resume_id Sample.db))
                [("Resume duplicated. You can now edit it.", "info")].
Proof.
  apply (duplicate_appends_copy Bleach.clean_text Sample.db (Sample.env 0) 10
                                MoreSamples.duplicate_request Sample.own_resume).
  - vm_compute. reflexivity.
  - reflexivity.
Defined.

(* ================================================================== *)
(** ** What the resume handlers leave alone *)
(* ================================================================== *)

(** The ways [edit_resume] ends: nothing committed, a copy appended under a
    fresh key, or one row of the requester overwritten in place. *)
Lemma edit_cases (clean : string -> string) (db : DB) (env : Env)
      (resume_id : Z) (req : Request) :
  fst (edit_resume clean db env resume_id req) = db
  \/ (exists copy,
        fst (edit_resume clean db env resume_id req) = add_resume copy db
        /\ Resume.id copy = next_resume_id db)
  \/ (exists original updated,
        find_owned db resume_id = Some original
        /\ fst (edit_resume clean db env resume_id req) = update_resume updated db
        /\ Resume.id updated = Resume.id original
        /\ Resume.user_id updated = Resume.user_id original).
Proof.
  unfold edit_resume.
  destruct (find_owned db resume_id) as [original|] eqn:Hfind; [|now left].
  destruct (match duplicate req with
            | Some d => (d =? "1")%string
            | None => false
            end).
  - right; left. eexists. split; reflexivity.
  - destruct (method req); [destruct (renders env _); now left|].
    destruct (check_pic env (profile_pic req)) as [|message|url|];
      try (now left);
      match goal with
      | |- context [edit_apply clean original ?f ?p] =>
          destruct (edit_apply_columns clean original f p)
            as (updated & -> & Hid & Huid & _)
      end;
      right; right; exists original, updated; now repeat split.
Qed.

Lemma generate_resumes
      (clean : string -> string) (M : UserMethods) (FREE_TEMPLATES : list string)
      (db : DB) (env : Env) (req : Request) :
  purchases (fst (generate clean M FREE_TEMPLATES db env req)) = purchases db
  /\ (resumes (fst (generate clean M FREE_TEMPLATES db env req)) = resumes db
      \/ exists row,
           resumes (fst (generate clean M FREE_TEMPLATES db env req))
           = (resumes db ++ [row])%list
           /\ Resume.id row = next_resume_id db).
Proof.
  destruct (generate_cases clean M FREE_TEMPLATES db env req)
    as [(endpoint & flashed & ->) | (view & pic_url & Hbuild & -> & _)]; simpl.
  - split; [reflexivity | now left].
  - split; [reflexivity|]. right.
    exists (Resume.created (now env) (view_resume view)).
    split; [reflexivity|]. now apply generate_build_row in Hbuild as (Hid & _).
Qed.

(** With pairwise distinct keys in the table, no request to [generate],
    [edit_resume] or [delete_resume] changes or removes a resume of another
    user: every such row is still in the table afterwards. *)
Theorem other_users_resumes_untouched
        (clean : string -> string) (M : UserMethods) (FREE_TEMPLATES : list string)
        (db : DB) (env : Env) (req : Request) (resume_id : Z) (r : Resume.t) :
  unique_ids db ->
  In r (resumes db) ->
  Resume.user_id r <> User.id (current_user db) ->
  In r (resumes (fst (generate clean M FREE_TEMPLATES db env req)))
  /\ In r (resumes (fst (edit_resume clean db env resume_id req)))
  /\ In r (resumes (fst (delete_resume db resume_id))).
Proof.
  intros Hnd Hin Hother. split; [|split].
  - destruct (generate_resumes clean M FREE_TEMPLATES db env req)
      as (_ & [-> | (row & -> & _)]); [exact Hin|].
    apply in_or_app. now left.
  - destruct (edit_cases clean db env resume_id req)
      as [-> | [(copy & -> & _) | (original & updated & Hfind & -> & Hid & Huid)]].
    + exact Hin.
    + simpl. apply in_or_app. now left.
    + apply find_owned_some in Hfind as (Hin0 & Hrid & Hown).
      unfold update_resume. simpl. apply in_map_iff. exists r.
      split; [|exact Hin].
      destruct (Resume.id r =? Resume.id updated) eqn:E; [|reflexivity].
      apply Z.eqb_eq in E. rewrite Hid in E.
      pose proof (same_id_same_row db _ _ Hnd Hin Hin0 E) as ->.
      contradiction.
  - unfold delete_resume.
    destruct (get_resume db resume_id) as [resume|] eqn:Hget; [|exact Hin].
    destruct (Resume.user_id resume =? User.id (current_user db)) eqn:Eown;
      simpl; [|exact Hin].
    apply filter_In. split; [exact Hin|].
    apply negb_true_iff. apply Z.eqb_neq. intros Hid.
    unfold get_resume in Hget. apply find_some in Hget as [Hin0 Hid0].
    apply Z.eqb_eq in Hid0, Eown.
    assert (Heq : Resume.id r = Resume.id resume) by lia.
    pose proof (same_id_same_row db _ _ Hnd Hin Hin0 Heq) as ->.
    contradiction.
Qed.

Lemma other_users_resumes_untouched_witness :
  In Sample.other_resume
     (resumes (fst (generate Bleach.clean_text (SpecModels.methods 3)
                             Sample.free_templates Sample.db (Sample.env 0)
                             MoreSamples.served_request)))
  /\ In Sample.other_resume
        (resumes (fst (edit_resume Bleach.clean_text Sample.db (Sample.env 0) 11
                                   MoreSamples.served_request)))
  /\ In Sample.other_resume (resumes (fst (delete_resume Sample.db 11))).
Proof.
  apply (other_users_resumes_untouched
           Bleach.clean_text (SpecModels.methods 3) Sample.free_templates
           Sample.db (Sample.env 0) MoreSamples.served_request 11
           Sample.other_resume).
  - unfold unique_ids. simpl. repeat constructor; simpl; intuition discriminate.
  - simpl. now right; left.
  - simpl. discriminate.
Defined.

(** Pairwise distinct keys stay pairwise distinct under [generate],
    [edit_resume] (an edit in place and a duplication alike) and
    [delete_resume]. *)
Theorem unique_ids_preserved
        (clean : string -> string) (M : UserMethods) (FREE_TEMPLATES : list string)
        (db : DB) (env : Env) (req : Request) (resume_id : Z) :
  unique_ids db ->
  unique_ids (fst (generate clean M FREE_TEMPLATES db env req))
  /\ unique_ids (fst (edit_resume clean db env resume_id req))
  /\ unique_ids (fst (delete_resume db resume_id)).
Proof.
  intros Hnd. split; [|split].
  - destruct (generate_resumes clean M FREE_TEMPLATES db env req)
      as (_ & [Heq | (row & Heq & Hid)]); unfold unique_ids; rewrite Heq.
    + exact Hnd.
    + apply (add_resume_unique row db Hnd Hid).
  - destruct (edit_cases clean db env resume_id req)
      as [-> | [(copy & -> & Hid) | (original & updated & _ & -> & _)]].
    + exact Hnd.
    + now apply add_resume_unique.
    + unfold unique_ids. now rewrite update_resume_ids.
  - unfold delete_resume.
    destruct (get_resume db resume_id) as [resume|]; [|exact Hnd].
    destruct (negb _); simpl; [exact Hnd|].
    now apply delete_row_unique.
Qed.

Lemma unique_ids_preserved_witness :
  unique_ids (fst (generate Bleach.clean_text (SpecModels.methods 3)
                            Sample.free_templates Sample.db (Sample.env 0)
                            MoreSamples.served_request))
  /\ unique_ids (fst (edit_resume Bleach.clean_text Sample.db (Sample.env 0) 10
                                  MoreSamples.served_request))
  /\ unique_ids (fst (delete_resume Sample.db 10)).
Proof.
  apply (unique_ids_preserved
           Bleach.clean_text (SpecModels.methods 3) Sample.free_templates
           Sample.db (Sample.env 0) MoreSamples.served_request 10).
  unfold unique_ids. simpl. repeat constructor; simpl; intuition discriminate.
Defined.

(* ================================================================== *)
(** ** The ledger: purchases, balance and plan *)
(* ================================================================== *)

(** The purchase table only grows, and only through [buy_token] and
    [upgrade]: the resume handlers leave it as it is; [buy_token] and
    [upgrade] either leave the whole database as it is or append exactly one
    purchase of the requester, at 50 or 100 for a token pack, 199 for the pro
    plan and 499 for the ultimate plan, so balance and plan never change
    without a purchase being recorded. *)
Theorem purchases_append_only
        (clean : string -> string) (M : UserMethods) (FREE_TEMPLATES : list string)
        (db : DB) (env : Env) (req : Request) (resume_id count : Z) (plan : string) :
  purchases (fst (generate clean M FREE_TEMPLATES db env req)) = purchases db
  /\ purchases (fst (edit_resume clean db env resume_id req)) = purchases db
  /\ purchases (fst (delete_resume db resume_id)) = purchases db
  /\ (fst (buy_token db count) = db
      \/ exists p,
           purchases (fst (buy_token db count)) = (purchases db ++ [p])%list
           /\ Purchase.user_id p = User.id (current_user db)
           /\ (count = 1 /\ Purchase.amount p = 50
               \/ count = 5 /\ Purchase.amount p = 100))
  /\ (fst (upgrade db plan) = db
      \/ exists p,
           purchases (fst (upgrade db plan)) = (purchases db ++ [p])%list
           /\ Purchase.user_id p = User.id (current_user db)
           /\ (plan = "pro" /\ Purchase.amount p = 199
               \/ plan = "ultimate" /\ Purchase.amount p = 499)).
Proof.
  split; [apply generate_resumes|]. split; [|split; [|split]].
  - destruct (edit_cases clean db env resume_id req)
      as [-> | [(copy & -> & _) | (original & updated & _ & -> & _)]];
      reflexivity.
  - unfold delete_resume.
    destruct (get_resume db resume_id) as [resume|]; [|reflexivity].
    now destruct (negb _).
  - unfold buy_token, price_map_get.
    destruct (count =? 1) eqn:E1; [|destruct (count =? 5) eqn:E5].
    + apply Z.eqb_eq in E1. right. eexists. simpl.
      split; [reflexivity|]. split; [reflexivity|]. now left.
    + apply Z.eqb_eq in E5. right. eexists. simpl.
      split; [reflexivity|]. split; [reflexivity|]. now right.
    + now left.
  - unfold upgrade.
    destruct (plan =? "pro")%string eqn:E1;
      [|destruct (plan =? "ultimate")%string eqn:E2].
    + apply String.eqb_eq in E1. right. eexists. simpl.
      split; [reflexivity|]. split; [reflexivity|]. now left.
    + apply String.eqb_eq in E2. right. eexists. simpl.
      split; [reflexivity|]. split; [reflexivity|]. now right.
    + now left.
Qed.

(** [upgrade("pro")] adds 15 tokens, sets the plan to pro (also for a user
    who was ultimate) and records the "Pro Pack" purchase; a plan that is
    neither "pro" nor "ultimate" is refused with nothing changed; and neither
    [upgrade] nor [buy_token] touches the resumes or turns a non-negative
    balance negative. *)
Theorem upgrade_outcomes (db : DB) (plan : string) (count : Z) :
  (let db' := fst (upgrade db "pro") in
   User.tokens (current_user db') = User.tokens (current_user db) + 15
   /\ User.plan (current_user db') = "pro"
   /\ User.id (current_user db') = User.id (current_user db)
   /\ purchases db'
      = (purchases db ++ [Purchase.mk (User.id (current_user db)) 199 "Pro Pack"])%list)
  /\ (plan <> "pro" -> plan <> "ultimate" ->
      upgrade db plan
      = (db, Redirect "pricing" None [("Invalid upgrade option.", "error")]))
  /\ resumes (fst (upgrade db plan)) = resumes db
  /\ resumes (fst (buy_token db count)) = resumes db
  /\ (0 <= User.tokens (current_user db) ->
      0 <= User.tokens (current_user (fst (upgrade db plan)))
      /\ User.tokens (current_user db)
         <= User.tokens (current_user (fst (buy_token db count)))).
Proof.
  split; [cbv zeta; now repeat split|].
  split.
  { intros H1 H2. unfold upgrade.
    apply String.eqb_neq in H1, H2. now rewrite H1, H2. }
  unfold upgrade, buy_token, price_map_get.
  destruct (plan =? "pro")%string; [|destruct (plan =? "ultimate")%string];
    (destruct (count =? 1) eqn:E1; [|destruct (count =? 5) eqn:E5]);
    simpl; repeat split; try reflexivity;
    try apply Z.eqb_eq in E1; try apply Z.eqb_eq in E5; lia.
Qed.

(* ================================================================== *)
(** ** Accounts *)
(* ================================================================== *)

Lemma find_account_none (table : list Account.t) (email : string) :
  find_account table email = None -> ~ In email (map Account.email table).
Proof.
  unfold find_account. intros Hnone Hin.
  apply in_map_iff in Hin as (a & Ha & Hin).
  pose proof (find_none _ _ Hnone a Hin) as H. simpl in H.
  rewrite Ha, String.eqb_refl in H. discriminate.
Qed.

(** [register] never adds an account under an email that is already in the
    table, so pairwise distinct emails stay pairwise distinct; it never
    removes or changes an account, and adds at most one. *)
Theorem register_keeps_emails_unique
        (generate_password_hash : string -> string)
        (st : AuthState) (submitted : option RegisterData) :
  unique_emails st ->
  let st' := fst (register generate_password_hash st submitted) in
  unique_emails st'
  /\ (accounts st' = accounts st
      \/ exists new_user, accounts st' = (accounts st ++ [new_user])%list).
Proof.
  intros Hnd. cbv zeta. unfold register.
  destruct submitted as [data|]; [|split; [exact Hnd | now left]].
  destruct (find_account (accounts st) (reg_email data)) eqn:E;
    [split; [exact Hnd | now left]|].
  simpl. split; [|right; eexists; reflexivity].
  unfold unique_emails. simpl. rewrite map_app. simpl.
  apply NoDup_app.
  - exact Hnd.
  - repeat constructor. now intros [].
  - intros email Hin [<- | []]. now apply (find_account_none _ _ E).
Qed.

Lemma register_keeps_emails_unique_witness :
  let st' := fst (register MoreSamples.toy_hash MoreSamples.auth_state
                           (Some MoreSamples.bob_data)) in
  unique_emails st'
  /\ (accounts st' = accounts MoreSamples.auth_state
      \/ exists new_user,
           accounts st' = (accounts MoreSamples.auth_state ++ [new_user])%list).
Proof.
  apply (register_keeps_emails_unique MoreSamples.toy_hash MoreSamples.auth_state
                                      (Some MoreSamples.bob_data)).
  unfold unique_emails. simpl. repeat constructor. now intros [].
Defined.

(** When [check_password_hash] accepts what [generate_password_hash]
    produced, an account registered under a new email starts on the free
    plan with 3 tokens and a lower-cased [first.last] user name, is logged
    in at once, and after a logout the same email and password log the same
    account in again. *)
Theorem register_then_login
        (generate_password_hash : string -> string)
        (check_password_hash : string -> string -> bool)
        (st : AuthState) (data : RegisterData) :
  (forall password,
      check_password_hash (generate_password_hash password) password = true) ->
  find_account (accounts st) (reg_email data) = None ->
  let registered := register generate_password_hash st (Some data) in
  exists new_user,
    registered
    = (mkAuthState (accounts st ++ [new_user]) (Some new_user),
       AuthRedirect "index" [("Account created successfully!", "success")])
    /\ Account.email new_user = reg_email data
    /\ Account.tokens new_user = 3
    /\ Account.plan new_user = "free"
    /\ Account.username new_user
       = Py.lower (reg_first_name data) ++ "." ++ Py.lower (reg_last_name data)
    /\ login check_password_hash (fst (logout (fst registered)))
             (Some (mkLoginData (reg_email data) (reg_password data)))
       = (mkAuthState (accounts st ++ [new_user]) (Some new_user),
          AuthRedirect "index" [("Logged in successfully.", "success")]).
Proof.
  intros Hcheck Hnew. cbv zeta. unfold register. rewrite Hnew.
  eexists. split; [reflexivity|]. simpl.
  repeat split.
  unfold login. simpl. unfold find_account in *.
  rewrite find_app, Hnew. simpl. rewrite String.eqb_refl. simpl.
  rewrite Hcheck. reflexivity.
Qed.

Lemma register_then_login_witness :
  let registered := register MoreSamples.toy_hash MoreSamples.auth_state
                             (Some MoreSamples.bob_data) in
  exists new_user,
    registered
    = (mkAuthState (accounts MoreSamples.auth_state ++ [new_user]) (Some new_user),
       AuthRedirect "index" [("Account created successfully!", "success")])
    /\ Account.email new_user = reg_email MoreSamples.bob_data
    /\ Account.tokens new_user = 3
    /\ Account.plan new_user = "free"
    /\ Account.username new_user
       = Py.lower (reg_first_name MoreSamples.bob_data) ++ "."
         ++ Py.lower (reg_last_name MoreSamples.bob_data)
    /\ login MoreSamples.toy_check (fst (logout (fst registered)))
             (Some (mkLoginData (reg_email MoreSamples.bob_data)
                                (reg_password MoreSamples.bob_data)))
       = (mkAuthState (accounts MoreSamples.auth_state ++ [new_user]) (Some new_user),
          AuthRedirect "index" [("Logged in successfully.", "success")]).
Proof.
  apply (register_then_login MoreSamples.toy_hash MoreSamples.toy_check
                             MoreSamples.auth_state MoreSamples.bob_data).
  - intros password. unfold MoreSamples.toy_check. apply String.eqb_refl.
  - vm_compute. reflexivity.
Defined.

(** [login] logs an account in only when the submitted email is that of an
    account in the table and [check_password_hash] accepts the submitted
    password against its stored hash; otherwise, and without a valid
    submission, the session stays as it was; the table is never changed. *)
Theorem login_only_with_checked_password
        (check_password_hash : string -> string -> bool)
        (st : AuthState) (submitted : option LoginData) :
  let result := login check_password_hash st submitted in
  accounts (fst result) = accounts st
  /\ match snd result with
     | AuthRedirect endpoint flashed =>
         exists data user,
           submitted = Some data
           /\ In user (accounts st)
           /\ Account.email user = login_email data
           /\ check_password_hash (Account.password user) (login_password data) = true
           /\ logged_in (fst result) = Some user
     | AuthRender template flashed =>
         fst result = st /\ template = "login.html"
     end.
Proof.
  cbv zeta. unfold login.
  destruct submitted as [data|]; [|now repeat split].
  destruct (find_account (accounts st) (login_email data)) as [user|] eqn:E;
    [|now repeat split].
  destruct (check_password_hash (Account.password user) (login_password data))
    eqn:Ec; [|now repeat split].
  simpl. split; [reflexivity|].
  unfold find_account in E. apply find_some in E as [Hin He].
  apply String.eqb_eq in He.
  exists data, user. now repeat split.
Qed.

(* ================================================================== *)
(** ** The submitted bio and the edited row *)
(* ================================================================== *)

(** When the submitted bio is not empty after stripping and sanitizing, it
    is the bio stored, and steps 5 to 9 of [generate] do not depend on the
    AI service, its key or the random draw: the service is only consulted
    for an empty bio. *)
Theorem submitted_bio_is_kept
        (clean : string -> string) (env env' : Env) (db : DB) (form : Form.t)
        (template : string) (pic_url : option string) :
  Py.truthy (sanitize clean (Py.strip (Form.get form "bio" ""))) = true ->
  generate_build clean env db form template pic_url
  = generate_build clean env' db form template pic_url
  /\ match generate_build clean env db form template pic_url with
     | Some view =>
         Resume.bio (view_resume view)
         = sanitize clean (Py.strip (Form.get form "bio" ""))
     | None =>
         Form.lookup form "name" = None \/ Form.lookup form "profession" = None
     end.
Proof.
  intros Hbio. unfold generate_build, generate_step_bio.
  unfold Py.truthy in Hbio. apply negb_true_iff in Hbio. rewrite Hbio.
  rewrite decode_experiences_eq, decode_projects_eq, decode_certifications_eq.
  split; [reflexivity|].
  destruct (Form.lookup form "name"), (Form.lookup form "profession");
    simpl; auto.
Qed.

Lemma submitted_bio_is_kept_witness :
  let form := [("name", "Ada"); ("profession", "Engineer"); ("bio", " I build. ")] in
  generate_build Bleach.clean_text (Sample.env 0) Sample.db form "classic" None
  = generate_build Bleach.clean_text (Sample.env 1) Sample.db form "classic" None
  /\ match generate_build Bleach.clean_text (Sample.env 0) Sample.db form
                          "classic" None with
     | Some view =>
         Resume.bio (view_resume view)
         = sanitize Bleach.clean_text (Py.strip (Form.get form "bio" ""))
     | None =>
         Form.lookup form "name" = None \/ Form.lookup form "profession" = None
     end.
Proof.
  apply (submitted_bio_is_kept
           Bleach.clean_text (Sample.env 0) (Sample.env 1) Sample.db
           [("name", "Ada"); ("profession", "Engineer"); ("bio", " I build. ")]
           "classic" None).
  vm_compute. reflexivity.
Defined.

Lemma get_lookup (form : Form.t) (key default : string) :
  Form.get form key default
  = match Form.lookup form key with
    | Some v => v
    | None => default
    end.
Proof.
  induction form as [|[k v] rest IH]; simpl; [reflexivity|].
  now destruct (k =? key)%string.
Qed.

(** An edit that is applied rewrites the edited row only: it keeps the key
    and the owner, keeps the stored picture unless a new one was accepted,
    and leaves every row with another key as it is.  Unlike [generate], it
    does not fail without a name or a profession: a missing field is stored
    as the empty string, and a missing template as "classic". *)
Theorem edit_rewrites_one_row
        (clean : string -> string) (db : DB) (env : Env) (resume_id : Z)
        (req : Request) (original : Resume.t) :
  find_owned db resume_id = Some original ->
  duplicate req <> Some "1" ->
  method req = POST ->
  (forall message, check_pic env (profile_pic req) <> PicRefused message) ->
  exists updated,
    fst (edit_resume clean db env resume_id req) = update_resume updated db
    /\ Resume.id updated = resume_id
    /\ Resume.user_id updated = User.id (current_user db)
    /\ Resume.profile_pic_url updated
       = match check_pic env (profile_pic req) with
         | PicStored url => Some url
         | _ => Resume.profile_pic_url original
         end
    /\ (forall r, In r (resumes db) -> Resume.id r <> resume_id ->
                  In r (resumes (update_resume updated db)))
    /\ List.length (resumes (update_resume updated db)) = List.length (resumes db)
    /\ (Form.lookup (form req) "name" = None -> Resume.name updated = "")
    /\ (Form.lookup (form req) "profession" = None -> Resume.profession updated = "")
    /\ (Form.lookup (form req) "template" = None ->
        Resume.template updated = "classic").
Proof.
  intros Hfind Hdup Hpost Hrefused.
  pose proof (check_pic_never_raises env (profile_pic req)) as Hraised.
  pose proof (find_owned_some _ _ _ Hfind) as (Hin & Hid & Hown).
  assert (Hflag : match duplicate req with
                  | Some d => (d =? "1")%string
                  | None => false
                  end = false).
  { destruct (duplicate req) as [d|]; [|reflexivity].
    apply String.eqb_neq. intros ->. now apply Hdup. }
  unfold edit_resume. rewrite Hfind, Hflag, Hpost.
  set (pic_url := match check_pic env (profile_pic req) with
                  | PicStored url => Some url
                  | _ => Resume.profile_pic_url original
                  end).
  assert (Happly : exists updated,
             edit_apply clean original (form req) pic_url = Some updated
             /\ Resume.id updated = Resume.id original
             /\ Resume.user_id updated = Resume.user_id original
             /\ Resume.profile_pic_url updated = pic_url
             /\ Resume.name updated = sanitize clean (Form.get (form req) "name" "")
             /\ Resume.profession updated
                = sanitize clean (Form.get (form req) "profession" "")
             /\ Resume.template updated = Form.get (form req) "template" "classic").
  { unfold edit_apply.
    rewrite decode_experiences_eq, decode_projects_eq, decode_certifications_eq.
    eexists. split; [reflexivity|]. simpl. now repeat split. }
  destruct Happly as (updated & Happly & Huid & Huown & Hpic & Hname & Hprof & Htpl).
  exists updated.
  split.
  { subst pic_url.
    destruct (check_pic env (profile_pic req)) as [|message|url|];
      try (now rewrite Happly);
      [now elim (Hrefused message) | now elim Hraised]. }
  split; [congruence|]. split; [congruence|]. split; [exact Hpic|].
  split; [|split; [|split; [|split]]].
  - intros r Hr Hne. unfold update_resume. simpl. apply in_map_iff.
    exists r. split; [|exact Hr].
    destruct (Resume.id r =? Resume.id updated) eqn:E; [|reflexivity].
    apply Z.eqb_eq in E. congruence.
  - unfold update_resume. simpl. apply length_map.
  - intros Hnone. rewrite Hname, get_lookup, Hnone. reflexivity.
  - intros Hnone. rewrite Hprof, get_lookup, Hnone. reflexivity.
  - intros Hnone. rewrite Htpl, get_lookup, Hnone. reflexivity.
Qed.

Lemma edit_rewrites_one_row_witness :
  exists updated,
    fst (edit_resume Bleach.clean_text Sample.db (Sample.env 0) 10 Sample.edit_request)
    = update_resume updated Sample.db
    /\ Resume.id updated = 10
    /\ Resume.user_id updated = User.id (current_user Sample.db)
    /\ Resume.profile_pic_url updated
       = match check_pic (Sample.env 0) (profile_pic Sample.edit_request) with
         | PicStored url => Some url
         | _ => Resume.profile_pic_url Sample.own_resume
         end
    /\ (forall r, In r (resumes Sample.db) -> Resume.id r <> 10 ->
                  In r (resumes (update_resume updated Sample.db)))
    /\ List.length (resumes (update_resume updated Sample.db))
       = List.length (resumes Sample.db)
    /\ (Form.lookup (form Sample.edit_request) "name" = None ->
        Resume.name updated = "")
    /\ (Form.lookup (form Sample.edit_request) "profession" = None ->
        Resume.profession updated = "")
    /\ (Form.lookup (form Sample.edit_request) "template" = None ->
        Resume.template updated = "classic").
Proof.
  apply (edit_rewrites_one_row
           Bleach.clean_text Sample.db (Sample.env 0) 10 Sample.edit_request
           Sample.own_resume).
  - vm_compute. reflexivity.
  - discriminate.
  - reflexivity.
  - intros message. vm_compute. discriminate.
Defined.
